(** * NimLisp badge generator: a shallow embedding of scripts/generate_badges.py

    The script shells out to external tools and then works on their text.
    Every function below takes, as explicit arguments, what the Python
    function reads from the outside world (exit codes, captured output,
    directory listings, file contents) and returns what it returns.

    Python [str] values are sequences of Unicode code points: a character is
    a code point in [N] and a string is a list of them. *)

From Stdlib Require Import List NArith ZArith Lia Bool Ascii String Floats.
From Stdlib Require Import DecimalString Permutation.
Import ListNotations.

(** ** Python strings *)

Module Py.

Definition char := N.
Definition str := list char.

(** A literal of the source, written as a Rocq string of ASCII characters. *)
Definition lit (s : string) : str := map N_of_ascii (list_ascii_of_string s).

Definition percent : char := 37%N.
Definition space : char := 32%N.
Definition newline : char := 10%N.

Definition char_eqb (a b : char) : bool := N.eqb a b.

Fixpoint str_eqb (a b : str) : bool :=
  match a, b with
  | [], [] => true
  | x :: a', y :: b' => char_eqb x y && str_eqb a' b'
  | _, _ => false
  end.

(** [startswith p s]: [s.startswith(p)]. *)
Fixpoint startswith (p s : str) : bool :=
  match p, s with
  | [], _ => true
  | _ :: _, [] => false
  | x :: p', y :: s' => char_eqb x y && startswith p' s'
  end.

(** [contains p s]: the Python expression [p in s]. *)
Fixpoint contains (p s : str) : bool :=
  startswith p s ||
  match s with
  | [] => false
  | _ :: s' => contains p s'
  end.

(** [s.replace(old, new)] for a one-character [old]: every occurrence is
    replaced, left to right. *)
Definition replace (old : char) (new : str) (s : str) : str :=
  flat_map (fun c => if char_eqb c old then new else [c]) s.

(** [s.split('\n')]: the lines of [s]; never an empty list. *)
Fixpoint split_lines (s : str) : list str :=
  match s with
  | [] => [[]]
  | c :: s' =>
      if char_eqb c newline then [] :: split_lines s'
      else match split_lines s' with
           | [] => [[c]]
           | l :: ls => (c :: l) :: ls
           end
  end.

(** [str(n)] for an [int]. *)
Definition str_of_int (n : Z) : str :=
  lit (NilEmpty.string_of_int (Z.to_int n)).

(** [str.isspace] on one character, which is also what [\s] matches in a
    [str] pattern. *)
Definition isspace (c : char) : bool :=
  ((9 <=? c) && (c <=? 13) || (28 <=? c) && (c <=? 32) ||
   (c =? 133) || (c =? 160) || (c =? 5760) ||
   (8192 <=? c) && (c <=? 8202) ||
   (c =? 8232) || (c =? 8233) || (c =? 8239) || (c =? 8287) ||
   (c =? 12288))%N.

End Py.

Import Py.

(** ** Exceptions

    A Python call either returns a value or raises.  [try_except] is
    [try: body / except Exception: handler]. *)

Inductive res (A : Type) : Type :=
| Ret (a : A)
| Raise.
Arguments Ret {A} a.
Arguments Raise {A}.

Definition bind {A B} (m : res A) (k : A -> res B) : res B :=
  match m with
  | Ret a => k a
  | Raise => Raise
  end.

Definition try_except {A} (body handler : res A) : res A :=
  match body with
  | Ret a => Ret a
  | Raise => handler
  end.

Notation "x <- m ;; k" := (bind m (fun x => k))
  (at level 61, m at next level, right associativity).

(** ** create_badge_url *)

(** The escaping that [create_badge_url] applies to [label] and to
    [message]: [.replace("%", "%25").replace(" ", "%20")]. *)
Definition escape (s : str) : str :=
  replace space (lit "%20") (replace percent (lit "%25") s).

Definition create_badge_url (label message color : str) : str :=
  let label := escape label in
  let message := escape message in
  lit "https://img.shields.io/badge/" ++ label ++ lit "-" ++ message
    ++ lit "-" ++ color ++ lit ".svg".

(** ** Regular expressions

    The script's patterns are fixed, and each is matched here by a function
    written for it.  A matcher [m] takes the text from the current position
    and returns the length of the match that starts there, if there is one.
    None of the patterns can match the empty string. *)

Definition matcher := str -> option nat.

(** [re.sub(pattern, repl, s)] for a replacement that [re] takes literally:
    the text is scanned left to right, the leftmost match is replaced, and
    the scan resumes after it.  [skip] counts the characters of the current
    match that are still to be dropped. *)
Fixpoint sub_loop (m : matcher) (repl : str) (skip : nat) (s : str) : str :=
  match s with
  | [] => []
  | c :: s' =>
      match skip with
      | S k => sub_loop m repl k s'
      | O =>
          match m s with
          | Some (S k) => repl ++ sub_loop m repl k s'
          | _ => c :: sub_loop m repl O s'
          end
      end
  end.

Definition sub_literal (m : matcher) (repl s : str) : str :=
  sub_loop m repl O s.

(** [re.search(pattern, s)]: the text before the leftmost match, the match,
    and the text after it. *)
Fixpoint search (m : matcher) (s : str) : option (str * str * str) :=
  match s with
  | [] => None
  | c :: s' =>
      match m s with
      | Some (S k) => Some ([], firstn (S k) s, skipn (S k) s)
      | _ =>
          match search m s' with
          | Some (pre, mt, post) => Some (c :: pre, mt, post)
          | None => None
          end
      end
  end.

(** The length of the longest prefix of [s] made of characters in [cls]:
    a greedy [[cls]*]. *)
Fixpoint span_len (cls : char -> bool) (s : str) : nat :=
  match s with
  | c :: s' => if cls c then S (span_len cls s') else O
  | [] => O
  end.

(** *** [\x1b\[[0-9;]*m]: an ANSI colour code

    The parameter run is greedy; the [m] that closes the code is not a
    parameter character, so no shorter run can match where the longest one
    does not. *)

Definition esc : char := 27%N.

Definition ansi_param (c : char) : bool :=
  ((48 <=? c) && (c <=? 57) || (c =? 59))%N.

Definition ansi_here : matcher := fun s =>
  match s with
  | e :: b :: s' =>
      if char_eqb e esc && char_eqb b 91%N then
        let n := span_len ansi_param s' in
        match skipn n s' with
        | c :: _ => if char_eqb c 109%N then Some (2 + n + 1) else None
        | [] => None
        end
      else None
  | _ => None
  end.

(** [re.sub(r'\x1b\[[0-9;]*m', '', line)] *)
Definition strip_ansi (line : str) : str := sub_literal ansi_here [] line.

(** *** [^block:] with [re.MULTILINE]

    [^] matches at the start of the text and after each newline.  [bol]
    tells whether the current position is such a place.  Matches cannot
    overlap: [block:] holds no newline. *)
Fixpoint count_line_starts (p : str) (bol : bool) (s : str) : Z :=
  match s with
  | [] => 0
  | c :: s' =>
      ((if bol && startswith p s then 1 else 0)
       + count_line_starts p (char_eqb c newline) s')%Z
  end.

(** [len(re.findall(r'^block:', content, re.MULTILINE))] *)
Definition count_blocks (content : str) : Z :=
  count_line_starts (lit "block:") true content.

(** *** The version pattern

    The word [version], white space [\s*], an equals sign, white space
    [\s*], a double quote, group 1 (one or more characters other than a
    double quote), and a double quote.  Both [\s*] are greedy and are
    followed by a character that is not white space, and the group is greedy
    and followed by the quote it excludes: in each case only the longest run
    can be followed by a match of the rest.  [version_here] returns the text
    of group 1. *)

Definition quote : char := 34%N.
Definition equals : char := 61%N.

Definition version_here (s : str) : option str :=
  if startswith (lit "version") s then
    let s1 := skipn 7 s in
    match skipn (span_len isspace s1) s1 with
    | e :: s2 =>
        if char_eqb e equals then
          match skipn (span_len isspace s2) s2 with
          | q :: s3 =>
              if char_eqb q quote then
                let n := span_len (fun c => negb (char_eqb c quote)) s3 in
                match n, skipn n s3 with
                | S _, _ :: _ => Some (firstn n s3)
                | _, _ => None
                end
              else None
          | [] => None
          end
        else None
    | [] => None
    end
  else None.

(** [re.search] of the version pattern in [content], then [match.group(1)]. *)
Fixpoint search_version (content : str) : option str :=
  match version_here content with
  | Some v => Some v
  | None =>
      match content with
      | [] => None
      | _ :: rest => search_version rest
      end
  end.

(** *** [\[!\[Name\].*?\]\([^)]*\)]: a badge image-link of the README

    After the literal [[![Name]] the lazy [.*?] stops at the first [](] that
    no newline precedes, and [[^)]*\)] then runs to the first [)].  When no
    [)] follows that [](], none follows a later one either, so there is
    nothing to backtrack to. *)

Definition lparen : char := 40%N.
Definition rparen : char := 41%N.
Definition rbracket : char := 93%N.

(** The number of characters [.*?] takes before [](]. *)
Fixpoint lazy_dots (s : str) : option nat :=
  match s with
  | [] => None
  | c :: s' =>
      if startswith [rbracket; lparen] s then Some O
      else if char_eqb c newline then None
      else option_map S (lazy_dots s')
  end.

(** The number of characters before the first [)]. *)
Fixpoint to_rparen (s : str) : option nat :=
  match s with
  | [] => None
  | c :: s' => if char_eqb c rparen then Some O else option_map S (to_rparen s')
  end.

Definition link_prefix (name : str) : str := lit "[![" ++ name ++ lit "]".

Definition link_here (name : str) : matcher := fun s =>
  let p := link_prefix name in
  if startswith p s then
    let s1 := skipn (List.length p) s in
    match lazy_dots s1 with
    | Some k =>
        match to_rparen (skipn (k + 2) s1) with
        | Some j => Some (List.length p + k + 2 + j + 1)
        | None => None
        end
    | None => None
    end
  else None.

(** ** get_project_version

    [glob_nimble] is the outcome of [list(Path(".").glob("*.nimble"))]; each
    entry of the list is the outcome of [read_text] on that file, should it
    be called. *)

Definition default_version : str := lit "0.1.0".

Definition get_project_version (glob_nimble : res (list (res str))) : res str :=
  try_except
    (nimble_files <- glob_nimble ;;
     match nimble_files with
     | first :: _ =>
         content <- first ;;
         match search_version content with
         | Some v => Ret v
         | None => Ret default_version
         end
     | [] => Ret default_version
     end)
    (Ret default_version).

(** ** generate_build_status *)

(** What the build checker sees of the outside world. *)
Record BuildEnv := {
  (** [Path(p).exists()] *)
  path_exists : str -> bool;
  (** [list(Path(".").rglob("*.nim"))], each path as [str(f)] *)
  rglob_nim : list str;
  (** the exit code of [run_command(cmd)] *)
  run_exit_code : str -> Z
}.

Definition generate_build_status (w : BuildEnv) : str :=
  let checked : option Z :=
    if path_exists w (lit "main.nim") then
      Some (run_exit_code w (lit "nim check main.nim"))
    else if path_exists w (lit "src/main.nim") then
      Some (run_exit_code w (lit "nim check src/main.nim"))
    else
      let nim_files := rglob_nim w in
      match nim_files with
      | first :: _ =>
          if negb (existsb (fun f => contains (lit "test") f) nim_files) then
            Some (run_exit_code w (lit "nim check " ++ first))
          else None
      | [] => None
      end
  in
  match checked with
  | None => lit "no source"
  | Some exit_code =>
      if (exit_code =? 0)%Z then lit "passing" else lit "failing"
  end.

(** ** run_tests *)

Record TestResults := {
  status : str;
  passed : Z;
  failed : Z;
  total : Z;
  test_functions : Z
}.

Definition pass_marker : str := lit "PASS:".
Definition compile_marker : str := lit ".nim c".
Definition fail_marker : str := lit "FAIL:".

(** One round of the loop over the output lines; [counts] is
    [(passed_files, failed_files)]. *)
Definition classify_line (counts : Z * Z) (line : str) : Z * Z :=
  let '(passed_files, failed_files) := counts in
  let clean_line := strip_ansi line in
  if contains pass_marker clean_line && contains compile_marker clean_line then
    (passed_files + 1, failed_files)%Z
  else if contains fail_marker clean_line then
    (passed_files, failed_files + 1)%Z
  else counts.

(** One round of the loop over [tests/t_*.nim]; a file whose [read_text]
    raises is skipped. *)
Definition add_blocks (test_blocks : Z) (file : res str) : Z :=
  match file with
  | Ret content => (test_blocks + count_blocks content)%Z
  | Raise => test_blocks
  end.

(** [exit_code] and [stdout] are what the test runner gave; [test_files]
    are the outcomes of [read_text] on the files of
    [Path("tests").glob("t_*.nim")]. *)
Definition run_tests (exit_code : Z) (stdout : str)
    (test_files : list (res str)) : TestResults :=
  let test_results :=
    {| status := lit "no tests"; passed := 0; failed := 0; total := 0;
       test_functions := 0 |} in
  if (exit_code =? 0)%Z then
    let lines := split_lines stdout in
    let '(passed_files, failed_files) :=
      fold_left classify_line lines (0, 0)%Z in
    let test_blocks := fold_left add_blocks test_files 0%Z in
    if (0 <? passed_files)%Z && (failed_files =? 0)%Z then
      {| status := lit "passing"; passed := test_blocks; failed := 0;
         total := test_blocks; test_functions := test_blocks |}
    else if (0 <? failed_files)%Z then
      {| status := lit "failing"; passed := 0; failed := test_blocks;
         total := test_blocks; test_functions := test_blocks |}
    else test_results
  else
    {| status := lit "failing"; passed := passed test_results;
       failed := failed test_results; total := total test_results;
       test_functions := test_functions test_results |}.

(** ** estimate_coverage_fallback

    Python's [float] is the IEEE 754 binary64 format, which is Rocq's
    primitive [float]. *)

(** [float(n)] for an [int]: the nearest binary64 number. *)
Definition float_of_int (n : Z) : float :=
  SF2Prim (binary_normalize prec emax n 0 false).

(** [a / b] on two [int]s.  The counts here are numbers of pattern matches
    in source files, far below 2^53, where both convert exactly and the
    quotient is the binary64 division of the two. *)
Definition true_div (a b : Z) : float :=
  (float_of_int a / float_of_int b)%float.

(** The builtin [min(a, b)]: the second argument is taken when it compares
    less than the first. *)
Definition py_min (a b : float) : float :=
  if (b <? a)%float then b else a.

(** The function after its counting loop, on the two counters. *)
Definition estimate_from_counts (test_blocks src_functions : Z) : float :=
  if (src_functions =? 0)%Z then 0%float
  else
    let ratio := true_div test_blocks src_functions in
    py_min (ratio * float_of_int 85) 95%float.

(** A file of [Path(".").rglob("*.nim")], as the loop looks at it. *)
Record NimFile := {
  (** [nim_file.is_relative_to(Path("tests"))] *)
  under_tests : bool;
  (** [nim_file.name] *)
  file_name : str;
  (** the outcome of [nim_file.read_text()] *)
  file_text : res str
}.

Section Fallback.

(** [str.lower], and the two declaration counts
    [len(re.findall(r'^\s*proc\s+\w+', content, re.MULTILINE))] and the same
    with [func]: library functions the model takes as given. *)
Variable lower : str -> str.
Variable count_proc : str -> Z.
Variable count_func : str -> Z.

(** One round of the loop; [counts] is [(src_functions, test_blocks)]. *)
Definition count_file (counts : Z * Z) (f : NimFile) : Z * Z :=
  let '(src_functions, test_blocks) := counts in
  if under_tests f && startswith (lit "t_") (file_name f) then
    match file_text f with
    | Ret content => (src_functions, test_blocks + count_blocks content)%Z
    | Raise => counts
    end
  else if negb (under_tests f || contains (lit "test") (lower (file_name f))) then
    match file_text f with
    | Ret content =>
        (src_functions + count_proc content + count_func content, test_blocks)%Z
    | Raise => counts
    end
  else counts.

Definition estimate_coverage_fallback (nim_files : list NimFile) : float :=
  let '(src_functions, test_blocks) :=
    fold_left count_file nim_files (0, 0)%Z in
  estimate_from_counts test_blocks src_functions.

End Fallback.

(** ** generate_badges *)

Record Badges := {
  version_badge : str;
  build_badge : str;
  tests_badge : str;
  coverage_badge : str
}.

Definition build_color (build_status : str) : str :=
  if str_eqb build_status (lit "passing") then lit "brightgreen"
  else if str_eqb build_status (lit "no source") then lit "lightgrey"
  else lit "red".

Definition test_message (test_results : TestResults) : str :=
  if (0 <? total test_results)%Z then
    if str_eqb (status test_results) (lit "failing") then
      str_of_int (total test_results) ++ lit " tests ("
        ++ str_of_int (failed test_results) ++ lit " failed)"
    else str_of_int (total test_results) ++ lit " tests"
  else lit "no tests".

Definition test_color (test_results : TestResults) : str :=
  if str_eqb (status test_results) (lit "passing") then lit "brightgreen"
  else if str_eqb (status test_results) (lit "failing") then lit "red"
  else lit "lightgrey".

Definition coverage_color (coverage : float) : str :=
  if (90 <=? coverage)%float then lit "brightgreen"
  else if (70 <=? coverage)%float then lit "yellow"
  else lit "red".

Section GenerateBadges.

(** [f"{coverage:.1f}"]: the library's formatting of a float with one
    decimal. *)
Variable format_1f : float -> str.

(** The function on the results of the four steps it runs. *)
Definition generate_badges (version build_status : str)
    (test_results : TestResults) (coverage : float) : Badges :=
  {| version_badge :=
       create_badge_url (lit "version") (lit "v" ++ version) (lit "blue");
     build_badge :=
       create_badge_url (lit "build") build_status (build_color build_status);
     tests_badge :=
       create_badge_url (lit "tests") (test_message test_results)
         (test_color test_results);
     coverage_badge :=
       create_badge_url (lit "coverage") (format_1f coverage ++ lit "%")
         (coverage_color coverage) |}.

End GenerateBadges.

(** ** update_readme *)

Definition backslash : char := 92%N.

(** [re.sub(pattern, repl, content)] for the link pattern of [name].  A
    replacement that holds a backslash goes through [re]'s template
    processing (escapes and group references), which is not modelled: the
    result is [None] there. *)
Definition re_sub_link (name repl content : str) : option str :=
  if existsb (fun c => char_eqb c backslash) repl then None
  else Some (sub_literal (link_here name) repl content).

(** [f'[![Name]({url})](#)'] *)
Definition new_link (name url : str) : str :=
  lit "[![" ++ name ++ lit "](" ++ url ++ lit ")](#)".

Definition replacements (badges : Badges) : list (str * str) :=
  [ (lit "Build Status", new_link (lit "Build Status") (build_badge badges));
    (lit "Test Coverage", new_link (lit "Test Coverage") (coverage_badge badges));
    (lit "Tests", new_link (lit "Tests") (tests_badge badges));
    (lit "Version", new_link (lit "Version") (version_badge badges)) ].

Definition apply_replacement (content : option str) (r : str * str) : option str :=
  match content with
  | Some c => re_sub_link (fst r) (snd r) c
  | None => None
  end.

(** [readme] is the text of README.md, or [None] when the file does not
    exist.  The result is the text the function writes back: [Some None]
    when the README is missing and nothing is written, and [None] outside
    the modelled part of [re.sub]. *)
Definition update_readme (badges : Badges) (readme : option str)
    : option (option str) :=
  match readme with
  | None => Some None
  | Some content =>
      option_map Some
        (fold_left apply_replacement (replacements badges) (Some content))
  end.

(** * The vocabulary of the specification

    Predicates and counts in which the properties below are stated, and the
    sample data they are tried on. *)

(** The characters the escaping rewrites. *)
Definition special (c : char) : bool :=
  char_eqb c percent || char_eqb c space.

Definition needs_escape (s : str) : bool := existsb special s.

(** One left-to-right pass: what the two chained [replace] calls amount to. *)
Definition escape_char (c : char) : str :=
  if char_eqb c percent then lit "%25"
  else if char_eqb c space then lit "%20"
  else [c].

Definition not_quote (c : char) : bool := negb (char_eqb c quote).

(** A [version = "..."] field somewhere in the manifest text, in the words
    of the specification: the word, optional white space around the equals
    sign, and a non-empty quoted text. *)
Definition has_version_field (content : str) : Prop :=
  exists pre ws1 ws2 v post,
    content = pre ++ lit "version" ++ ws1 ++ [equals] ++ ws2
                  ++ [quote] ++ v ++ [quote] ++ post
    /\ forallb isspace ws1 = true
    /\ forallb isspace ws2 = true
    /\ v <> []
    /\ forallb not_quote v = true.

(** The situations in which the manifest gives no version: the directory
    listing fails or finds no manifest, the first manifest cannot be read,
    or its text holds no version field. *)
Inductive no_version : res (list (res str)) -> Prop :=
| NoListing : no_version Raise
| NoManifest : no_version (Ret [])
| ReadError rest : no_version (Ret (Raise :: rest))
| NoField content rest :
    ~ has_version_field content -> no_version (Ret (Ret content :: rest)).

(** A second manifest with a version field, the first without. *)
Definition manifest_without : str := lit "# Package" ++ [newline] ++ lit "author = me".
Definition manifest_with : str :=
  lit "version = " ++ [quote] ++ lit "2.3.1" ++ [quote].

(** A line of the runner's output bears a marker when the line, with its
    colour codes stripped, contains it. *)
Definition bears (marker line : str) : bool :=
  contains marker (strip_ansi line).

(** A file-level pass: the pass marker and the compile-unit marker. *)
Definition pass_line (line : str) : bool :=
  bears pass_marker line && bears compile_marker line.

Definition fail_line (line : str) : bool := bears fail_marker line.

(** A file-level failure: the fail marker on a line that is not a pass. *)
Definition failure_line (line : str) : bool :=
  fail_line line && negb (pass_line line).

(** The number of output lines that satisfy [p]. *)
Definition count_lines (p : str -> bool) (stdout : str) : Z :=
  Z.of_nat (List.length (filter p (split_lines stdout))).

(** The test blocks of the test files that can be read. *)
Fixpoint blocks_in (test_files : list (res str)) : Z :=
  match test_files with
  | [] => 0
  | Ret content :: rest => count_blocks content + blocks_in rest
  | Raise :: rest => blocks_in rest
  end.

Definition results (st : str) (p f t : Z) : TestResults :=
  {| status := st; passed := p; failed := f; total := t; test_functions := t |}.

(** The output of a run with two passing files, in colour. *)
Definition two_passes : str :=
  [esc] ++ lit "[1;32mPASS: " ++ [esc] ++ lit "[0mtests/t_parser.nim c"
    ++ [newline] ++ lit "PASS: tests/t_eval.nim c" ++ [newline].

Definition three_blocks : list (res str) :=
  [ Ret (lit "block:" ++ [newline] ++ lit "  check 1" ++ [newline]
           ++ lit "block:" ++ [newline]);
    Raise;
    Ret (lit "import x" ++ [newline] ++ lit "block: # last") ].

Definition pass_and_fail : str :=
  lit "PASS: tests/t_eval.nim c" ++ [newline]
    ++ lit "FAIL: tests/t_parser.nim c" ++ [newline].

(** [re.sub] in the words of its documentation: the leftmost
    non-overlapping occurrences of the pattern are replaced, and the text
    between them is kept. *)
Inductive replaced_all (m : matcher) (repl : str) : str -> str -> Prop :=
| replaced_none s :
    search m s = None -> replaced_all m repl s s
| replaced_next s pre mt post out :
    search m s = Some (pre, mt, post) ->
    replaced_all m repl post out ->
    replaced_all m repl s (pre ++ repl ++ out).

Definition not_newline (c : char) : bool := negb (char_eqb c newline).
Definition not_rparen (c : char) : bool := negb (char_eqb c rparen).

(** A markdown image-link of category [name]: the opening [[![name]], any
    text on the same line, then [](], a target without a closing
    parenthesis, and [)]. *)
Definition is_link (name mt : str) : Prop :=
  exists mid target,
    mt = link_prefix name ++ mid ++ [rbracket; lparen] ++ target ++ [rparen]
    /\ forallb not_newline mid = true
    /\ forallb not_rparen target = true.

(** The replacement is taken literally when it holds no backslash. *)
Definition literal (s : str) : Prop :=
  existsb (fun c => char_eqb c backslash) s = false.

(** The example of the specification: one Tests badge among other text. *)
Definition example_badges : Badges :=
  {| version_badge := create_badge_url (lit "version") (lit "v2.3.1") (lit "blue");
     build_badge := create_badge_url (lit "build") (lit "passing") (lit "brightgreen");
     tests_badge := lit "new-url";
     coverage_badge := create_badge_url (lit "coverage") (lit "68.0%") (lit "red") |}.

Definition example_readme : str :=
  lit "# NimLisp" ++ [newline] ++ lit "[![Tests](old-url)](#)" ++ [newline]
    ++ lit "A Lisp (in Nim)." ++ [newline].

(** A project laid out as this one: sources under src/, tests under tests/,
    no main.nim.  Every command succeeds. *)
Definition project_with_tests : BuildEnv :=
  {| path_exists := fun _ => false;
     rglob_nim := [lit "src/nimlisp.nim"; lit "tests/t_parser.nim"];
     run_exit_code := fun _ => 0%Z |}.

(** The two counters the loop of [estimate_coverage_fallback] ends with. *)
Definition src_functions_of (lower : str -> str) (count_proc count_func : str -> Z)
    (nim_files : list NimFile) : Z :=
  fst (fold_left (count_file lower count_proc count_func) nim_files (0, 0)%Z).

Definition test_blocks_of (lower : str -> str) (count_proc count_func : str -> Z)
    (nim_files : list NimFile) : Z :=
  snd (fold_left (count_file lower count_proc count_func) nim_files (0, 0)%Z).

(** ** Further vocabulary *)

Definition lbracket : char := 91%N.
Definition bang : char := 33%N.
Definition dash : char := 45%N.

(** The text [s] holds no character [c]. *)
Definition lacks (c : char) (s : str) : Prop :=
  existsb (fun x => char_eqb x c) s = false.

(** The characters of a colour code after its escape character: the opening
    bracket, the parameters and the closing [m]. *)
Definition ansi_tail (c : char) : bool :=
  char_eqb c lbracket || ansi_param c || char_eqb c 109%N.

(** The four badge categories with the URL each one gets, in the order in
    which [update_readme] goes through them. *)
Definition categories (badges : Badges) : list (str * str) :=
  [ (lit "Build Status", build_badge badges);
    (lit "Test Coverage", coverage_badge badges);
    (lit "Tests", tests_badge badges);
    (lit "Version", version_badge badges) ].

(** The files the counting loop of [estimate_coverage_fallback] takes as
    test files and as source files. *)
Definition is_test_file (f : NimFile) : bool :=
  under_tests f && startswith (lit "t_") (file_name f).

Definition is_source_file (lower : str -> str) (f : NimFile) : bool :=
  negb (under_tests f) && negb (contains (lit "test") (lower (file_name f))).

(** What one file adds to a counter when it can be read. *)
Definition readable (count : str -> Z) (f : NimFile) : Z :=
  match file_text f with
  | Ret content => count content
  | Raise => 0%Z
  end.

Fixpoint total_over (p : NimFile -> bool) (count : str -> Z)
    (files : list NimFile) : Z :=
  match files with
  | [] => 0%Z
  | f :: rest =>
      ((if p f then readable count f else 0) + total_over p count rest)%Z
  end.

(** A badge URL that [re.sub] takes literally and that opens no link: it
    holds neither a backslash nor an opening bracket. *)
Definition plain (url : str) : Prop := literal url /\ lacks lbracket url.

Definition plain_badges (badges : Badges) : Prop :=
  plain (build_badge badges) /\ plain (coverage_badge badges)
  /\ plain (tests_badge badges) /\ plain (version_badge badges).

(** Two texts that differ at a place where both still have a character. *)
Fixpoint diverge (p q : str) : bool :=
  match p, q with
  | x :: p', y :: q' => if char_eqb x y then diverge p' q' else true
  | _, _ => false
  end.

(** * Properties *)

(** ** The escaping of create_badge_url *)

Lemma replace_app old new a b :
  replace old new (a ++ b) = replace old new a ++ replace old new b.
Proof. unfold replace. apply flat_map_app. Qed.

Lemma escape_cons c s : escape (c :: s) = escape_char c ++ escape s.
Proof.
  unfold escape. change (c :: s) with ([c] ++ s).
  rewrite !replace_app. f_equal.
  unfold escape_char, replace. cbn [flat_map]. rewrite app_nil_r.
  destruct (char_eqb c percent) eqn:Hp; [reflexivity|].
  cbn [flat_map]. rewrite app_nil_r. reflexivity.
Qed.

Lemma escape_flat_map s : escape s = flat_map escape_char s.
Proof.
  induction s as [|c s IH]; [reflexivity|].
  rewrite escape_cons, IH. reflexivity.
Qed.

Lemma escape_app a b : escape (a ++ b) = escape a ++ escape b.
Proof. rewrite !escape_flat_map. apply flat_map_app. Qed.

Lemma escape_char_length c :
  List.length (escape_char c) = if special c then 3 else 1.
Proof.
  unfold escape_char, special.
  destruct (char_eqb c percent); [reflexivity|].
  destruct (char_eqb c space); reflexivity.
Qed.

Lemma escape_length_ge s : List.length s <= List.length (escape s).
Proof.
  induction s as [|c s IH]; [apply le_n|].
  rewrite escape_cons, length_app, escape_char_length. cbn [List.length].
  destruct (special c); lia.
Qed.

Lemma escape_clean s : needs_escape s = false -> escape s = s.
Proof.
  induction s as [|c s IH]; [reflexivity|].
  cbn [needs_escape existsb]. intros H.
  apply orb_false_iff in H. destruct H as [Hc Hs].
  rewrite escape_cons, (IH Hs). unfold escape_char.
  unfold special in Hc. apply orb_false_iff in Hc. destruct Hc as [-> ->].
  reflexivity.
Qed.

Lemma escape_same_length s :
  List.length (escape s) = List.length s -> needs_escape s = false.
Proof.
  induction s as [|c s IH]; [reflexivity|].
  rewrite escape_cons, length_app, escape_char_length.
  cbn [List.length needs_escape existsb]. pose proof (escape_length_ge s) as Hge.
  destruct (special c); intros H; [lia|].
  apply IH. lia.
Qed.

Lemma escape_char_needs c :
  needs_escape (escape_char c) = special c.
Proof.
  unfold escape_char, special.
  destruct (char_eqb c percent) eqn:Hp; [reflexivity|].
  destruct (char_eqb c space) eqn:Hs; [reflexivity|].
  cbn [needs_escape existsb]. unfold special. rewrite Hp, Hs. reflexivity.
Qed.

Lemma escape_needs s : needs_escape (escape s) = needs_escape s.
Proof.
  induction s as [|c s IH]; [reflexivity|].
  rewrite escape_cons. unfold needs_escape in *.
  rewrite existsb_app, IH. cbn [existsb].
  f_equal. apply escape_char_needs.
Qed.

Lemma escape_idem_iff s :
  escape (escape s) = escape s <-> needs_escape s = false.
Proof.
  split.
  - intros H. rewrite <- escape_needs. apply escape_same_length.
    now rewrite H.
  - intros H. rewrite !(escape_clean s H). reflexivity.
Qed.

Lemma create_badge_url_length l m c :
  List.length (create_badge_url l m c) =
  List.length (escape l) + List.length (escape m) + List.length c + 35.
Proof.
  unfold create_badge_url. rewrite !length_app. cbn. lia.
Qed.




(** ** Strings and matchers *)

Lemma char_eqb_eq a b : char_eqb a b = true <-> a = b.
Proof. apply N.eqb_eq. Qed.

Lemma char_eqb_refl a : char_eqb a a = true.
Proof. apply N.eqb_refl. Qed.

Lemma startswith_app p s : startswith p (p ++ s) = true.
Proof.
  induction p as [|x p IH]; [reflexivity|].
  cbn. now rewrite char_eqb_refl, IH.
Qed.

Lemma startswith_split p s :
  startswith p s = true -> s = p ++ skipn (List.length p) s.
Proof.
  revert s. induction p as [|x p IH]; intros s H; [reflexivity|].
  destruct s as [|y s]; [discriminate|].
  cbn in H. apply andb_true_iff in H. destruct H as [Hxy Hp].
  apply char_eqb_eq in Hxy. subst y. cbn. f_equal. now apply IH.
Qed.

Lemma span_len_firstn cls s :
  forallb cls (firstn (span_len cls s) s) = true.
Proof.
  induction s as [|c s IH]; [reflexivity|].
  cbn. destruct (cls c) eqn:Hc; [|reflexivity].
  cbn. now rewrite Hc, IH.
Qed.

Lemma span_len_app cls a c r :
  forallb cls a = true -> cls c = false ->
  span_len cls (a ++ c :: r) = List.length a.
Proof.
  intros Ha Hc. induction a as [|x a IH]; cbn.
  - now rewrite Hc.
  - cbn in Ha. apply andb_true_iff in Ha. destruct Ha as [Hx Ha].
    rewrite Hx. f_equal. now apply IH.
Qed.

Lemma skipn_length_app {A} (a b : list A) : skipn (List.length a) (a ++ b) = b.
Proof. induction a; [reflexivity|]. cbn. assumption. Qed.

Lemma firstn_length_app {A} (a b : list A) : firstn (List.length a) (a ++ b) = a.
Proof. induction a; [reflexivity|]. cbn. now f_equal. Qed.

(** ** The version field *)

Lemma version_here_sound s v :
  version_here s = Some v ->
  exists ws1 ws2 post,
    s = lit "version" ++ ws1 ++ [equals] ++ ws2 ++ [quote] ++ v ++ [quote] ++ post
    /\ forallb isspace ws1 = true /\ forallb isspace ws2 = true
    /\ v <> [] /\ forallb not_quote v = true.
Proof.
  unfold version_here.
  destruct (startswith (lit "version") s) eqn:Hp; [|discriminate].
  apply startswith_split in Hp. change (List.length (lit "version")) with 7 in Hp.
  set (s1 := skipn 7 s) in *.
  pose proof (span_len_firstn isspace s1) as Hw1.
  pose proof (firstn_skipn (span_len isspace s1) s1) as E1.
  destruct (skipn (span_len isspace s1) s1) as [|e s2]; [discriminate|].
  destruct (char_eqb e equals) eqn:He; [|discriminate].
  apply char_eqb_eq in He. subst e.
  pose proof (span_len_firstn isspace s2) as Hw2.
  pose proof (firstn_skipn (span_len isspace s2) s2) as E2.
  destruct (skipn (span_len isspace s2) s2) as [|q s3]; [discriminate|].
  destruct (char_eqb q quote) eqn:Hq; [|discriminate].
  apply char_eqb_eq in Hq. subst q.
  fold not_quote.
  pose proof (span_len_firstn not_quote s3) as Hv.
  pose proof (firstn_skipn (span_len not_quote s3) s3) as E3.
  assert (Hstop : forall q' post,
             skipn (span_len not_quote s3) s3 = q' :: post -> q' = quote).
  { clear. induction s3 as [|c s3 IH]; intros q' post Hs; [discriminate|].
    cbn in Hs. destruct (not_quote c) eqn:Hc.
    - cbn in Hs. eapply IH; eauto.
    - cbn in Hs. injection Hs as -> _. unfold not_quote in Hc.
      apply negb_false_iff in Hc. now apply char_eqb_eq in Hc. }
  destruct (span_len not_quote s3) as [|k] eqn:Hn; [discriminate|].
  destruct (skipn (S k) s3) as [|q' post] eqn:Hs; [discriminate|].
  intros [= <-].
  assert (Hq' : q' = quote) by (eapply Hstop; reflexivity).
  subst q'.
  exists (firstn (span_len isspace s1) s1), (firstn (span_len isspace s2) s2), post.
  repeat split; try assumption.
  - rewrite Hp. f_equal. rewrite <- E1 at 1. f_equal. cbn [app]. f_equal.
    rewrite <- E2 at 1. f_equal. cbn [app]. f_equal.
    rewrite <- E3 at 1. reflexivity.
  - destruct s3; [discriminate|]. cbn. discriminate.
Qed.

Lemma search_version_sound content v :
  search_version content = Some v -> has_version_field content.
Proof.
  induction content as [|c content IH]; cbn [search_version].
  - destruct (version_here []) eqn:H; [|discriminate].
    intros _. destruct (version_here_sound _ _ H) as (ws1 & ws2 & post & E & ?).
    exists [], ws1, ws2, s, post. split; [exact E|assumption].
  - destruct (version_here (c :: content)) eqn:H.
    + intros _. destruct (version_here_sound _ _ H) as (ws1 & ws2 & post & E & ?).
      exists [], ws1, ws2, s, post. split; [exact E|assumption].
    + intros Hs. destruct (IH Hs) as (pre & ws1 & ws2 & v' & post & E & ?).
      exists (c :: pre), ws1, ws2, v', post. split; [|assumption].
      cbn [app]. now f_equal.
Qed.

Lemma version_here_complete ws1 ws2 v post :
  forallb isspace ws1 = true -> forallb isspace ws2 = true ->
  v <> [] -> forallb not_quote v = true ->
  version_here (lit "version" ++ ws1 ++ [equals] ++ ws2 ++ [quote]
                  ++ v ++ [quote] ++ post) = Some v.
Proof.
  intros H1 H2 Hv Hq. unfold version_here.
  rewrite startswith_app.
  change 7 with (List.length (lit "version")).
  rewrite (skipn_length_app (lit "version")).
  cbn [app]. rewrite (span_len_app isspace ws1 equals _ H1 eq_refl).
  rewrite (skipn_length_app ws1), char_eqb_refl.
  rewrite (span_len_app isspace ws2 quote _ H2 eq_refl).
  rewrite (skipn_length_app ws2), char_eqb_refl.
  fold not_quote.
  rewrite (span_len_app not_quote v quote post Hq eq_refl).
  destruct v as [|x v']; [contradiction|].
  change (List.length (x :: v')) with (S (List.length v')). cbv iota beta.
  change (S (List.length v')) with (List.length (x :: v')).
  rewrite (skipn_length_app (x :: v')), (firstn_length_app (x :: v')).
  reflexivity.
Qed.

Lemma search_version_complete content :
  has_version_field content -> search_version content <> None.
Proof.
  intros (pre & ws1 & ws2 & v & post & -> & H1 & H2 & Hv & Hq).
  induction pre as [|c pre IH].
  - cbn [app]. pose proof (version_here_complete ws1 ws2 v post H1 H2 Hv Hq) as H.
    destruct v as [|x v]; [contradiction|].
    remember (lit "version" ++ _) as s. destruct s; cbn [search_version];
      rewrite H; discriminate.
  - cbn [app search_version].
    destruct (version_here _); [discriminate|exact IH].
Qed.

Lemma search_version_none content :
  search_version content = None <-> ~ has_version_field content.
Proof.
  split.
  - intros H Hf. now apply search_version_complete in Hf.
  - intros H. destruct (search_version content) eqn:E; [|reflexivity].
    exfalso. apply H. eapply search_version_sound; eauto.
Qed.

(** ** get_project_version *)

Lemma get_project_version_no_field content rest :
  ~ has_version_field content ->
  get_project_version (Ret (Ret content :: rest)) = Ret default_version.
Proof.
  intros Hno. apply search_version_none in Hno.
  unfold get_project_version. cbn. now rewrite Hno.
Qed.

(** C7.  When no manifest file exists, when the manifest text holds no
    version field, or when reading raises, the version reader returns
    "0.1.0"; it returns, and does not raise. *)
Theorem get_project_version_default glob_nimble :
  no_version glob_nimble ->
  get_project_version glob_nimble = Ret default_version.
Proof.
  intros H. destruct H as [| |rest|content rest Hno]; try reflexivity.
  now apply get_project_version_no_field.
Qed.

Lemma get_project_version_default_witness :
  get_project_version
    (Ret [Ret (lit "# Package" ++ [newline] ++ lit "author = me")]) =
  Ret (lit "0.1.0").
Proof.
  apply (get_project_version_default
           (Ret [Ret (lit "# Package" ++ [newline] ++ lit "author = me")])).
  apply NoField. apply search_version_none. vm_compute. reflexivity.
Defined.

(** The reader is total: whatever the directory listing and the files do,
    it hands a version back to its caller. *)
Theorem get_project_version_returns glob_nimble :
  exists v, get_project_version glob_nimble = Ret v.
Proof.
  destruct glob_nimble as [[|[content|] rest]|];
    unfold get_project_version; cbn [bind try_except]; eauto.
  destruct (search_version content); cbn [try_except]; eauto.
Qed.

(** C10.  With several manifest files only the first one of the listing is
    consulted: when it holds no version field the result is "0.1.0", also
    when another manifest of the listing holds one; in general the result
    is that of the listing cut down to its first file. *)
Theorem get_project_version_first_only content other rest first :
  ~ has_version_field content ->
  has_version_field other ->
  In (Ret other) rest ->
  get_project_version (Ret (Ret content :: rest)) = Ret default_version
  /\ get_project_version (Ret (first :: rest))
     = get_project_version (Ret [first]).
Proof.
  intros Hno _ _. split.
  - now apply get_project_version_no_field.
  - reflexivity.
Qed.

Lemma manifest_with_has_field : has_version_field manifest_with.
Proof.
  exists [], [space], [space], (lit "2.3.1"), [].
  repeat split; try reflexivity. discriminate.
Qed.

Lemma get_project_version_first_only_witness :
  get_project_version (Ret [Ret manifest_without; Ret manifest_with])
    = Ret (lit "0.1.0")
  /\ get_project_version (Ret [Ret manifest_with; Ret manifest_without])
    = Ret (lit "2.3.1").
Proof.
  split.
  - apply (get_project_version_first_only manifest_without manifest_with
             [Ret manifest_with] Raise).
    + apply search_version_none. vm_compute. reflexivity.
    + exact manifest_with_has_field.
    + left. reflexivity.
  - vm_compute. reflexivity.
Defined.

(** ** create_badge_url *)

(** C3 (counterexample).  Encoding an already encoded pair gives another
    URL: the message "10 tests" is encoded as "10%20tests", and that in turn
    as "10%2520tests". *)
Lemma create_badge_url_not_idempotent :
  create_badge_url (escape (lit "tests")) (escape (lit "10 tests")) (lit "red")
  <> create_badge_url (lit "tests") (lit "10 tests") (lit "red").
Proof. vm_compute. discriminate. Qed.

(** C3 (as amended).  Within a call each character is escaped once, in one
    pass: "%" becomes "%25", a space becomes "%20", every other character
    is kept, and the "%" that the escaping writes is not escaped again.
    Encoding an encoded pair again yields the same URL exactly when neither
    the label nor the message holds a "%" or a space. *)
Theorem create_badge_url_escapes_once label message color :
  create_badge_url label message color
    = lit "https://img.shields.io/badge/" ++ flat_map escape_char label
        ++ lit "-" ++ flat_map escape_char message ++ lit "-" ++ color
        ++ lit ".svg"
  /\ (create_badge_url (escape label) (escape message) color
        = create_badge_url label message color
      <-> needs_escape label = false /\ needs_escape message = false).
Proof.
  split.
  - unfold create_badge_url. now rewrite !escape_flat_map.
  - split.
    + intros H. apply (f_equal (@List.length char)) in H.
      rewrite !create_badge_url_length in H.
      pose proof (escape_length_ge (escape label)) as Hl.
      pose proof (escape_length_ge (escape message)) as Hm.
      split; rewrite <- escape_needs; apply escape_same_length; lia.
    + intros [Hl Hm]. now rewrite (escape_clean label Hl), (escape_clean message Hm).
Qed.

(** ** run_tests *)

Lemma fold_add_blocks test_files acc :
  fold_left add_blocks test_files acc = (acc + blocks_in test_files)%Z.
Proof.
  revert acc. induction test_files as [|[content|] rest IH]; intros acc; cbn.
  - lia.
  - rewrite IH. lia.
  - apply IH.
Qed.

Lemma classify_line_step p f line :
  classify_line (p, f) line =
  (p + (if pass_line line then 1 else 0),
   f + (if failure_line line then 1 else 0))%Z.
Proof.
  unfold classify_line, failure_line, fail_line, pass_line, bears.
  destruct (contains pass_marker (strip_ansi line)
            && contains compile_marker (strip_ansi line));
    destruct (contains fail_marker (strip_ansi line));
    cbn [andb negb]; f_equal; lia.
Qed.

Lemma fold_classify_line lines p f :
  fold_left classify_line lines (p, f) =
  (p + Z.of_nat (List.length (filter pass_line lines)),
   f + Z.of_nat (List.length (filter failure_line lines)))%Z.
Proof.
  revert p f. induction lines as [|l lines IH]; intros p f.
  - cbn. f_equal; lia.
  - cbn [fold_left filter]. rewrite classify_line_step, IH.
    destruct (pass_line l), (failure_line l); cbn [List.length];
      f_equal; lia.
Qed.

Lemma count_lines_nonneg p stdout : (0 <= count_lines p stdout)%Z.
Proof. unfold count_lines. lia. Qed.

Lemma failure_le_fail lines :
  (List.length (filter failure_line lines)
   <= List.length (filter fail_line lines))%nat.
Proof.
  induction lines as [|l lines IH]; [apply le_n|].
  cbn [filter]. unfold failure_line at 1.
  destruct (fail_line l); cbn [andb].
  - destruct (negb (pass_line l)); cbn [List.length]; lia.
  - exact IH.
Qed.

(** What [run_tests] computes, in terms of the counts of lines. *)
Lemma run_tests_unfold exit_code stdout test_files :
  run_tests exit_code stdout test_files =
  if (exit_code =? 0)%Z then
    if (0 <? count_lines pass_line stdout)%Z
       && (count_lines failure_line stdout =? 0)%Z
    then results (lit "passing") (blocks_in test_files) 0 (blocks_in test_files)
    else if (0 <? count_lines failure_line stdout)%Z
    then results (lit "failing") 0 (blocks_in test_files) (blocks_in test_files)
    else results (lit "no tests") 0 0 0
  else results (lit "failing") 0 0 0.
Proof.
  unfold run_tests, count_lines.
  destruct (exit_code =? 0)%Z; [|reflexivity].
  rewrite fold_classify_line, fold_add_blocks. cbn [Z.add].
  reflexivity.
Qed.

Lemma run_tests_pass_only stdout test_files :
  (1 <= count_lines pass_line stdout)%Z ->
  count_lines fail_line stdout = 0%Z ->
  run_tests 0 stdout test_files =
  results (lit "passing") (blocks_in test_files) 0 (blocks_in test_files).
Proof.
  intros Hpos Hfail. rewrite run_tests_unfold. cbn [Z.eqb].
  assert (Hf : count_lines failure_line stdout = 0%Z).
  { pose proof (failure_le_fail (split_lines stdout)) as Hle.
    unfold count_lines in *. lia. }
  rewrite Hf.
  replace (0 <? count_lines pass_line stdout)%Z with true
    by (symmetry; apply Z.ltb_lt; lia).
  reflexivity.
Qed.

(** C4.  The runner exits with code 0, N >= 1 lines of its output bear both
    the pass marker and the compile-unit marker, no line bears the fail
    marker, and the test files hold M test blocks: the result is "passing"
    with total = passed = test_functions = M and failed = 0.  (Markers are
    looked for after the colour codes are stripped, as the runner's lines
    are classified.) *)
Theorem run_tests_passing stdout test_files N M :
  count_lines pass_line stdout = N ->
  (1 <= N)%Z ->
  count_lines fail_line stdout = 0%Z ->
  blocks_in test_files = M ->
  run_tests 0 stdout test_files =
  {| status := lit "passing"; passed := M; failed := 0; total := M;
     test_functions := M |}.
Proof.
  intros HN Hpos Hfail HM. subst N M.
  now apply run_tests_pass_only.
Qed.

Lemma run_tests_passing_witness :
  run_tests 0 two_passes three_blocks =
  {| status := lit "passing"; passed := 3; failed := 0; total := 3;
     test_functions := 3 |}.
Proof.
  apply (run_tests_passing two_passes three_blocks 2 3).
  - vm_compute. reflexivity.
  - lia.
  - vm_compute. reflexivity.
  - vm_compute. reflexivity.
Defined.

(** C5 (counterexample).  A fail-marker line does not by itself give the
    block count as total: when the runner exits with a code other than 0 the
    counts stay 0 although the test files hold a block; and on exit code 0 a
    line that bears the fail marker next to both pass markers counts as a
    pass. *)
Lemma run_tests_fail_marker_not_enough :
  let out := lit "FAIL: tests/t_parser.nim c" in
  let both := lit "PASS: tests/t_parser.nim c FAIL: none" in
  let files := [Ret (lit "block:")] in
  count_lines fail_line out = 1%Z
  /\ blocks_in files = 1%Z
  /\ total (run_tests 1 out files) = 0%Z
  /\ count_lines fail_line both = 1%Z
  /\ status (run_tests 0 both files) = lit "passing"
  /\ passed (run_tests 0 both files) = 1%Z.
Proof. vm_compute. repeat split; reflexivity. Qed.

(** C5 (as amended).  When at least one line of the output is a file-level
    failure (it bears the fail marker and is not a pass line), the status is
    "failing" and passed = 0, however many pass lines there are; total,
    failed and test_functions are the block count when the runner exited
    with code 0, and 0 when it exited with another code. *)
Theorem run_tests_failing exit_code stdout test_files :
  (1 <= count_lines failure_line stdout)%Z ->
  run_tests exit_code stdout test_files =
  if (exit_code =? 0)%Z then
    {| status := lit "failing"; passed := 0;
       failed := blocks_in test_files; total := blocks_in test_files;
       test_functions := blocks_in test_files |}
  else
    {| status := lit "failing"; passed := 0; failed := 0; total := 0;
       test_functions := 0 |}.
Proof.
  intros H. rewrite run_tests_unfold.
  destruct (exit_code =? 0)%Z; [|reflexivity].
  replace (count_lines failure_line stdout =? 0)%Z with false
    by (symmetry; apply Z.eqb_neq; lia).
  replace (0 <? count_lines failure_line stdout)%Z with true
    by (symmetry; apply Z.ltb_lt; lia).
  rewrite andb_false_r. reflexivity.
Qed.

Lemma run_tests_failing_witness :
  run_tests 0 pass_and_fail three_blocks =
  {| status := lit "failing"; passed := 0; failed := 3; total := 3;
     test_functions := 3 |}.
Proof.
  apply (run_tests_failing 0 pass_and_fail three_blocks).
  vm_compute. discriminate.
Defined.

(** C8.  Whatever the exit code, the output and the test files, the record
    that [run_tests] returns has passed + failed = total and
    total = test_functions, and its status is "no tests", "passing" or
    "failing". *)
Theorem run_tests_invariant exit_code stdout test_files :
  let r := run_tests exit_code stdout test_files in
  (passed r + failed r = total r)%Z
  /\ total r = test_functions r
  /\ (status r = lit "no tests" \/ status r = lit "passing"
      \/ status r = lit "failing").
Proof.
  cbv zeta. rewrite run_tests_unfold.
  destruct (exit_code =? 0)%Z;
    [destruct (_ && _); [|destruct (0 <? _)%Z]|];
    cbn [results passed failed total test_functions status];
    repeat split; try lia; auto.
Qed.

(** ** update_readme *)

Section Substitution.

Variable m : matcher.
Variable repl : str.

Lemma sub_loop_skip k s :
  sub_loop m repl k s = sub_loop m repl O (skipn k s).
Proof.
  revert s. induction k as [|k IH]; intros s; [reflexivity|].
  destruct s as [|c s]; [reflexivity|]. cbn [sub_loop skipn]. apply IH.
Qed.

Lemma search_split s pre mt post :
  search m s = Some (pre, mt, post) -> s = pre ++ mt ++ post.
Proof.
  revert pre. induction s as [|c s IH]; intros pre; [discriminate|].
  cbn [search].
  destruct (m (c :: s)) as [[|k]|];
    try (destruct (search m s) as [[[pre' mt'] post']|]; [|discriminate];
         intros [= <- <- <-]; cbn [app]; f_equal; now apply IH).
  intros [= <- <- <-]. cbn. f_equal. symmetry. apply firstn_skipn.
Qed.

Lemma search_post_shorter s pre mt post :
  search m s = Some (pre, mt, post) -> List.length post < List.length s.
Proof.
  revert pre. induction s as [|c s IH]; intros pre; [discriminate|].
  cbn [search].
  destruct (m (c :: s)) as [[|k]|];
    try (destruct (search m s) as [[[pre' mt'] post']|]; [|discriminate];
         intros [= <- <- <-]; cbn [List.length];
         specialize (IH _ eq_refl); lia).
  intros [= <- <- <-]. rewrite length_skipn. cbn [List.length]. lia.
Qed.

Lemma sub_no_match s : search m s = None -> sub_literal m repl s = s.
Proof.
  unfold sub_literal. induction s as [|c s IH]; [reflexivity|].
  cbn [search sub_loop].
  destruct (m (c :: s)) as [[|k]|]; try discriminate;
    (destruct (search m s) as [[[pre' mt'] post']|]; [discriminate|]);
    intros _; f_equal; now apply IH.
Qed.

Lemma sub_leftmost s pre mt post :
  search m s = Some (pre, mt, post) ->
  sub_literal m repl s = pre ++ repl ++ sub_literal m repl post.
Proof.
  unfold sub_literal. revert pre. induction s as [|c s IH]; intros pre;
    [discriminate|].
  cbn [search sub_loop].
  destruct (m (c :: s)) as [[|k]|];
    try (destruct (search m s) as [[[pre' mt'] post']|]; [|discriminate];
         intros [= <- <- <-]; cbn [app]; f_equal; now apply IH).
  intros [= <- <- <-]. cbn [app skipn]. f_equal. apply sub_loop_skip.
Qed.

(** The match that [search] returns is what the matcher found there. *)
Lemma search_match s pre mt post :
  search m s = Some (pre, mt, post) ->
  exists k, m (mt ++ post) = Some (S k) /\ mt = firstn (S k) (mt ++ post).
Proof.
  revert pre. induction s as [|c s IH]; intros pre; [discriminate|].
  cbn [search].
  destruct (m (c :: s)) as [[|k]|] eqn:Hm;
    try (destruct (search m s) as [[[pre' mt'] post']|]; [|discriminate];
         intros H; injection H as <- <- <-; eapply IH; reflexivity).
  intros H. injection H as <- <- <-. exists k.
  assert (E : firstn (S k) (c :: s) ++ skipn (S k) (c :: s) = c :: s)
    by apply firstn_skipn.
  split.
  - etransitivity; [|exact Hm]. f_equal. exact E.
  - change (firstn (S k) (c :: s) =
            firstn (S k) (firstn (S k) (c :: s) ++ skipn (S k) (c :: s))).
    now rewrite E.
Qed.

(** The text before the leftmost match holds no earlier match. *)
Lemma search_leftmost s pre mt post :
  search m s = Some (pre, mt, post) ->
  forall a b, pre = a ++ b -> b <> [] ->
  m (b ++ mt ++ post) = None \/ m (b ++ mt ++ post) = Some O.
Proof.
  revert pre. induction s as [|c s IH]; intros pre; [discriminate|].
  cbn [search]. intros H a b E Hb.
  destruct (m (c :: s)) as [[|k]|] eqn:Hm.
  - destruct (search m s) as [[[pre' mt'] post']|] eqn:Hs; [|discriminate].
    injection H as <- <- <-.
    destruct a as [|x a]; cbn [app] in E.
    + subst b. cbn [app]. rewrite <- (search_split _ _ _ _ Hs). now right.
    + injection E as -> E. eapply IH; eauto.
  - injection H as <- <- <-. destruct a; destruct b; try discriminate.
    now contradiction Hb.
  - destruct (search m s) as [[[pre' mt'] post']|] eqn:Hs; [|discriminate].
    injection H as <- <- <-.
    destruct a as [|x a]; cbn [app] in E.
    + subst b. cbn [app]. rewrite <- (search_split _ _ _ _ Hs). now left.
    + injection E as -> E. eapply IH; eauto.
Qed.

Lemma sub_literal_replaced_all s :
  replaced_all m repl s (sub_literal m repl s).
Proof.
  remember (List.length s) as n eqn:Hn. revert s Hn.
  induction n as [n IH] using lt_wf_ind. intros s Hn.
  destruct (search m s) as [[[pre mt] post]|] eqn:Hs.
  - rewrite (sub_leftmost _ _ _ _ Hs). eapply replaced_next; [exact Hs|].
    apply (IH (List.length post)); [|reflexivity].
    subst n. eapply search_post_shorter; eauto.
  - rewrite (sub_no_match _ Hs). now apply replaced_none.
Qed.

End Substitution.

(** *** The badge links of the README *)

Lemma lazy_dots_sound s k :
  lazy_dots s = Some k ->
  exists mid rest,
    s = mid ++ rbracket :: lparen :: rest
    /\ List.length mid = k /\ forallb not_newline mid = true.
Proof.
  revert k. induction s as [|c s IH]; intros k; [discriminate|].
  cbn [lazy_dots].
  destruct (startswith [rbracket; lparen] (c :: s)) eqn:Hp.
  - intros [= <-]. apply startswith_split in Hp.
    exists [], (skipn 2 (c :: s)). repeat split. exact Hp.
  - destruct (char_eqb c newline) eqn:Hc; [discriminate|].
    destruct (lazy_dots s) as [k'|]; [|discriminate].
    intros [= <-]. destruct (IH k' eq_refl) as (mid & rest & -> & <- & Hmid).
    exists (c :: mid), rest. repeat split.
    cbn [forallb]. unfold not_newline at 1. now rewrite Hc.
Qed.

Lemma to_rparen_sound s j :
  to_rparen s = Some j ->
  exists target rest,
    s = target ++ rparen :: rest
    /\ List.length target = j /\ forallb not_rparen target = true.
Proof.
  revert j. induction s as [|c s IH]; intros j; [discriminate|].
  cbn [to_rparen]. destruct (char_eqb c rparen) eqn:Hc.
  - intros [= <-]. apply char_eqb_eq in Hc. subst c.
    exists [], s. repeat split.
  - destruct (to_rparen s) as [j'|]; [|discriminate].
    intros [= <-]. destruct (IH j' eq_refl) as (tgt & rest & -> & <- & Ht).
    exists (c :: tgt), rest. repeat split.
    cbn [forallb]. unfold not_rparen at 1. now rewrite Hc.
Qed.

Lemma link_here_sound name s n :
  link_here name s = Some n ->
  exists mt post, s = mt ++ post /\ List.length mt = n /\ is_link name mt.
Proof.
  unfold link_here. cbv zeta. remember (link_prefix name) as p eqn:Ep.
  destruct (startswith p s) eqn:Hp; [|discriminate].
  apply startswith_split in Hp.
  destruct (lazy_dots _) as [k|] eqn:Hk; [|discriminate].
  destruct (lazy_dots_sound _ _ Hk) as (mid & rest & E1 & <- & Hmid).
  rewrite E1.
  replace (List.length mid + 2) with (List.length (mid ++ [rbracket; lparen]))
    by (rewrite length_app; reflexivity).
  change (mid ++ rbracket :: lparen :: rest)
    with (mid ++ [rbracket; lparen] ++ rest).
  rewrite app_assoc, skipn_length_app.
  destruct (to_rparen rest) as [j|] eqn:Hj; [|discriminate].
  destruct (to_rparen_sound _ _ Hj) as (tgt & post & -> & <- & Ht).
  intros [= <-].
  exists (p ++ mid ++ [rbracket; lparen] ++ tgt ++ [rparen]), post.
  split; [|split].
  - rewrite Hp at 1. rewrite E1. rewrite <- !app_assoc. reflexivity.
  - rewrite !length_app. cbn [List.length]. lia.
  - subst p. exists mid, tgt. repeat split; assumption.
Qed.

Lemma search_link_is_link name s pre mt post :
  search (link_here name) s = Some (pre, mt, post) -> is_link name mt.
Proof.
  intros H. destruct (search_match _ _ _ _ _ H) as (k & Hm & E).
  destruct (link_here_sound _ _ _ Hm) as (mt' & post' & E' & Hlen & Hlink).
  rewrite E, E', <- Hlen, firstn_length_app. exact Hlink.
Qed.

Lemma apply_replacement_literal name url content :
  literal url -> literal name ->
  apply_replacement (Some content) (name, new_link name url) =
  Some (sub_literal (link_here name) (new_link name url) content).
Proof.
  intros Hu Hn. unfold apply_replacement, re_sub_link, new_link, fst, snd.
  rewrite !existsb_app, Hu, Hn. reflexivity.
Qed.

(** C2 (counterexample).  A README with two Tests badges: both are
    rewritten, not only the first. *)
Lemma update_readme_rewrites_second_link :
  let badges :=
    {| version_badge := lit "v"; build_badge := lit "b";
       tests_badge := lit "new-url"; coverage_badge := lit "c" |} in
  update_readme badges
    (Some (lit "[![Tests](old-1)](#) and [![Tests](old-2)](#)"))
  = Some (Some (lit "[![Tests](new-url)](#) and [![Tests](new-url)](#)"))
  /\ update_readme badges
       (Some (lit "[![Tests](old-1)](#) and [![Tests](old-2)](#)"))
     <> Some (Some (lit "[![Tests](new-url)](#) and [![Tests](old-2)](#)")).
Proof. vm_compute. split; [reflexivity|discriminate]. Qed.

(** C2 (as amended).  For each of the four badge categories, in the order
    Build Status, Test Coverage, Tests, Version, the README updater replaces
    every image-link that matches the category's pattern, scanning left to
    right, with the new badge link and its placeholder anchor target; the
    text before, between and after the links stays as it is.  (The badge
    URLs hold no backslash.) *)
Theorem update_readme_replaces_all badges content :
  literal (build_badge badges) ->
  literal (coverage_badge badges) ->
  literal (tests_badge badges) ->
  literal (version_badge badges) ->
  exists c1 c2 c3 c4,
    replaced_all (link_here (lit "Build Status"))
      (new_link (lit "Build Status") (build_badge badges)) content c1
    /\ replaced_all (link_here (lit "Test Coverage"))
      (new_link (lit "Test Coverage") (coverage_badge badges)) c1 c2
    /\ replaced_all (link_here (lit "Tests"))
      (new_link (lit "Tests") (tests_badge badges)) c2 c3
    /\ replaced_all (link_here (lit "Version"))
      (new_link (lit "Version") (version_badge badges)) c3 c4
    /\ update_readme badges (Some content) = Some (Some c4).
Proof.
  intros Hb Hc Ht Hv.
  unfold update_readme, replacements. cbn [fold_left].
  rewrite (apply_replacement_literal (lit "Build Status") _ content Hb eq_refl).
  rewrite (apply_replacement_literal (lit "Test Coverage") _ _ Hc eq_refl).
  rewrite (apply_replacement_literal (lit "Tests") _ _ Ht eq_refl).
  rewrite (apply_replacement_literal (lit "Version") _ _ Hv eq_refl).
  cbn [option_map].
  do 4 eexists. repeat split; try apply sub_literal_replaced_all.
Qed.

Lemma update_readme_replaces_all_witness :
  exists c1 c2 c3 c4,
    replaced_all (link_here (lit "Build Status"))
      (new_link (lit "Build Status") (build_badge example_badges))
      example_readme c1
    /\ replaced_all (link_here (lit "Test Coverage"))
      (new_link (lit "Test Coverage") (coverage_badge example_badges)) c1 c2
    /\ replaced_all (link_here (lit "Tests"))
      (new_link (lit "Tests") (tests_badge example_badges)) c2 c3
    /\ replaced_all (link_here (lit "Version"))
      (new_link (lit "Version") (version_badge example_badges)) c3 c4
    /\ update_readme example_badges (Some example_readme) = Some (Some c4).
Proof.
  apply (update_readme_replaces_all example_badges example_readme);
    vm_compute; reflexivity.
Defined.

Theorem update_readme_example :
  update_readme example_badges (Some example_readme) =
  Some (Some (lit "# NimLisp" ++ [newline] ++ lit "[![Tests](new-url)](#)"
                ++ [newline] ++ lit "A Lisp (in Nim)." ++ [newline])).
Proof. vm_compute. reflexivity. Qed.

(** ** generate_badges: the tests badge *)

(** C9.  The runner exits 0 with at least one pass line and no fail-marker
    line, but the test files hold no test block: [run_tests] returns
    "passing" with total 0, and the tests badge is built with the message
    "no tests" and the colour "brightgreen". *)
Theorem tests_badge_passing_without_blocks
    format_1f version build_status coverage stdout test_files :
  (1 <= count_lines pass_line stdout)%Z ->
  count_lines fail_line stdout = 0%Z ->
  blocks_in test_files = 0%Z ->
  let r := run_tests 0 stdout test_files in
  status r = lit "passing"
  /\ total r = 0%Z
  /\ test_message r = lit "no tests"
  /\ test_color r = lit "brightgreen"
  /\ tests_badge (generate_badges format_1f version build_status r coverage)
     = lit "https://img.shields.io/badge/tests-no%20tests-brightgreen.svg".
Proof.
  intros Hpos Hfail Hblocks. cbv zeta.
  rewrite (run_tests_pass_only stdout test_files Hpos Hfail), Hblocks.
  repeat split.
Qed.

Lemma tests_badge_passing_without_blocks_witness :
  let r := run_tests 0 (lit "PASS: tests/t_empty.nim c")
             [Ret (lit "echo 1")] in
  status r = lit "passing"
  /\ total r = 0%Z
  /\ test_message r = lit "no tests"
  /\ test_color r = lit "brightgreen"
  /\ tests_badge (generate_badges (fun _ => lit "0.0") (lit "0.1.0")
                    (lit "passing") r 0%float)
     = lit "https://img.shields.io/badge/tests-no%20tests-brightgreen.svg".
Proof.
  apply (tests_badge_passing_without_blocks (fun _ => lit "0.0") (lit "0.1.0")
           (lit "passing") 0%float (lit "PASS: tests/t_empty.nim c")
           [Ret (lit "echo 1")]).
  - vm_compute. discriminate.
  - vm_compute. reflexivity.
  - vm_compute. reflexivity.
Defined.

(** ** generate_build_status *)

(** When the build checker says "no source": neither fixed entry path
    exists, and the tree holds no source file or holds some file with
    "test" in its path. *)
Theorem generate_build_status_no_source w :
  generate_build_status w = lit "no source" <->
  path_exists w (lit "main.nim") = false
  /\ path_exists w (lit "src/main.nim") = false
  /\ (rglob_nim w = []
      \/ existsb (fun f => contains (lit "test") f) (rglob_nim w) = true).
Proof.
  unfold generate_build_status.
  destruct (path_exists w (lit "main.nim")).
  { split; [|intros [H _]; discriminate].
    destruct (run_exit_code w _ =? 0)%Z; discriminate. }
  destruct (path_exists w (lit "src/main.nim")).
  { split; [|intros (_ & H & _); discriminate].
    destruct (run_exit_code w _ =? 0)%Z; discriminate. }
  destruct (rglob_nim w) as [|first rest] eqn:Hfiles.
  { split; auto. }
  destruct (existsb _ (first :: rest)); cbn [negb].
  - split; auto.
  - split.
    + destruct (run_exit_code w _ =? 0)%Z; discriminate.
    + intros (_ & _ & [H|H]); discriminate.
Qed.

(** C1 (the code at the failing input).  The tree holds a source file
    without "test" in its path, and the build checker still reports
    "no source": one test file in the tree is enough for that. *)
Theorem generate_build_status_hidden_by_tests :
  existsb (fun f => negb (contains (lit "test") f))
    (rglob_nim project_with_tests) = true
  /\ generate_build_status project_with_tests = lit "no source".
Proof. vm_compute. split; reflexivity. Qed.

(** ** estimate_coverage_fallback *)

(** The cap: [min(x, 95.0)] is never above 95.0, whatever [x] is. *)
Lemma py_min_cap x : (95 <? py_min x 95)%float = false.
Proof.
  unfold py_min. destruct (95 <? x)%float eqn:H; [reflexivity|exact H].
Qed.

Section FallbackProperties.

Variable lower : str -> str.
Variable count_proc count_func : str -> Z.

Lemma estimate_coverage_fallback_counts nim_files :
  estimate_coverage_fallback lower count_proc count_func nim_files =
  estimate_from_counts (test_blocks_of lower count_proc count_func nim_files) (src_functions_of lower count_proc count_func nim_files).
Proof.
  unfold estimate_coverage_fallback, test_blocks_of, src_functions_of.
  destruct (fold_left _ nim_files (0, 0)%Z) as [src tb]. reflexivity.
Qed.

(** C6.  For every count of test blocks and of source functions the
    fallback estimate is 0.0 when no source function was counted and
    otherwise min(test_blocks / source_functions * 85, 95.0); it is never
    above 95.0.  Four test blocks over five source functions give 68.0,
    which is under the threshold 70, so that the coverage badge is "red". *)
Theorem estimate_coverage_fallback_capped test_blocks src_functions nim_files :
  estimate_from_counts test_blocks 0 = 0%float
  /\ estimate_from_counts test_blocks src_functions
     = (if (src_functions =? 0)%Z then 0
        else py_min (true_div test_blocks src_functions * 85) 95)%float
  /\ (95 <? estimate_from_counts test_blocks src_functions)%float = false
  /\ estimate_coverage_fallback lower count_proc count_func nim_files
     = estimate_from_counts (test_blocks_of lower count_proc count_func nim_files)
         (src_functions_of lower count_proc count_func nim_files)
  /\ (95 <? estimate_coverage_fallback lower count_proc count_func nim_files)%float
     = false
  /\ estimate_from_counts 4 5 = 68%float
  /\ (70 <=? 68)%float = false
  /\ coverage_color (estimate_from_counts 4 5) = lit "red".
Proof.
  assert (Hcap : forall tb sf, (95 <? estimate_from_counts tb sf)%float = false).
  { intros tb sf. unfold estimate_from_counts.
    destruct (sf =? 0)%Z; [reflexivity|apply py_min_cap]. }
  repeat split.
  - apply Hcap.
  - apply estimate_coverage_fallback_counts.
  - rewrite estimate_coverage_fallback_counts. apply Hcap.
Qed.

End FallbackProperties.

(** * Further properties of the script *)

(** ** run_tests: the remaining branches *)

(** When the runner exits with a code other than 0 the status is "failing"
    and every count keeps its default 0; the output is not looked at. *)
Theorem run_tests_runner_error exit_code stdout test_files :
  exit_code <> 0%Z ->
  run_tests exit_code stdout test_files =
  {| status := lit "failing"; passed := 0; failed := 0; total := 0;
     test_functions := 0 |}.
Proof.
  intros H. rewrite run_tests_unfold.
  destruct (exit_code =? 0)%Z eqn:E; [|reflexivity].
  apply Z.eqb_eq in E. contradiction.
Qed.

Lemma run_tests_runner_error_witness :
  run_tests 2 two_passes three_blocks =
  {| status := lit "failing"; passed := 0; failed := 0; total := 0;
     test_functions := 0 |}.
Proof.
  apply (run_tests_runner_error 2 two_passes three_blocks). discriminate.
Defined.

(** When the runner exits 0 and no line of its output is a file-level pass
    or a file-level failure, the status stays "no tests" with all counts 0,
    whatever the test files hold. *)
Theorem run_tests_nothing_seen stdout test_files :
  count_lines pass_line stdout = 0%Z ->
  count_lines failure_line stdout = 0%Z ->
  run_tests 0 stdout test_files =
  {| status := lit "no tests"; passed := 0; failed := 0; total := 0;
     test_functions := 0 |}.
Proof.
  intros Hp Hf. rewrite run_tests_unfold, Hp, Hf. reflexivity.
Qed.

Lemma run_tests_nothing_seen_witness :
  run_tests 0 (lit "testament: no files") three_blocks =
  {| status := lit "no tests"; passed := 0; failed := 0; total := 0;
     test_functions := 0 |}.
Proof.
  apply (run_tests_nothing_seen (lit "testament: no files") three_blocks);
    vm_compute; reflexivity.
Defined.

(** A line without the escape character is left as it is by the
    stripping of colour codes. *)
Theorem strip_ansi_plain line :
  existsb (fun c => char_eqb c esc) line = false ->
  strip_ansi line = line.
Proof.
  unfold strip_ansi, sub_literal.
  induction line as [|c line IH]; [reflexivity|].
  cbn [existsb]. intros H. apply orb_false_iff in H. destruct H as [Hc Hl].
  cbn [sub_loop]. unfold ansi_here at 1.
  destruct line as [|b line']; [reflexivity|].
  rewrite Hc. cbn [andb]. f_equal. now apply IH.
Qed.

Lemma strip_ansi_plain_witness :
  strip_ansi (lit "PASS: tests/t_eval.nim c") = lit "PASS: tests/t_eval.nim c".
Proof.
  apply (strip_ansi_plain (lit "PASS: tests/t_eval.nim c")).
  vm_compute. reflexivity.
Defined.

(** ** generate_build_status: a fixed entry path exists *)

(** With main.nim present the build checker checks it, whatever else the
    tree holds: "passing" on exit code 0 and "failing" otherwise. *)
Theorem generate_build_status_main w :
  path_exists w (lit "main.nim") = true ->
  generate_build_status w =
  if (run_exit_code w (lit "nim check main.nim") =? 0)%Z
  then lit "passing" else lit "failing".
Proof.
  intros H. unfold generate_build_status. now rewrite H.
Qed.

Lemma generate_build_status_main_witness :
  generate_build_status
    {| path_exists := fun p => str_eqb p (lit "main.nim");
       rglob_nim := [lit "main.nim"; lit "tests/t_parser.nim"];
       run_exit_code := fun _ => 1%Z |} = lit "failing".
Proof.
  apply (generate_build_status_main
           {| path_exists := fun p => str_eqb p (lit "main.nim");
              rglob_nim := [lit "main.nim"; lit "tests/t_parser.nim"];
              run_exit_code := fun _ => 1%Z |}).
  vm_compute. reflexivity.
Defined.

(** ** The examples of the specification *)

(** A manifest with [version = "2.3.1"] gives the version badge the
    message "v2.3.1". *)
Theorem version_badge_example format_1f build_status test_results coverage :
  get_project_version (Ret [Ret manifest_with]) = Ret (lit "2.3.1")
  /\ version_badge
       (generate_badges format_1f (lit "2.3.1") build_status test_results
          coverage)
     = lit "https://img.shields.io/badge/version-v2.3.1-blue.svg".
Proof. split; vm_compute; reflexivity. Qed.

(** Ten test blocks, one pass line and no fail line: the tests badge reads
    "10 tests" in "brightgreen". *)
Theorem tests_badge_example :
  let ten := Ret (flat_map (fun _ => lit "block:" ++ [newline]) (seq 0 10)) in
  let r := run_tests 0 (lit "PASS: tests/t_all.nim c (1.2 sec)") [ten] in
  total r = 10%Z
  /\ test_message r = lit "10 tests"
  /\ test_color r = lit "brightgreen".
Proof. vm_compute. repeat split. Qed.

(** A missing README is left missing: nothing is written. *)
Theorem update_readme_missing badges : update_readme badges None = Some None.
Proof. reflexivity. Qed.

(** * The code beyond the stated properties *)

(** ** create_badge_url: what the escaping guarantees *)

Lemma escape_char_nonempty c : escape_char c <> [].
Proof.
  unfold escape_char.
  destruct (char_eqb c percent); [discriminate|].
  destruct (char_eqb c space); discriminate.
Qed.

Lemma escape_char_cancel x y u v :
  escape_char x ++ u = escape_char y ++ v -> x = y /\ u = v.
Proof.
  unfold escape_char.
  destruct (char_eqb x percent) eqn:Hxp; [apply char_eqb_eq in Hxp; subst x|];
    (destruct (char_eqb y percent) eqn:Hyp; [apply char_eqb_eq in Hyp; subst y|]).
  - intros H. split; [reflexivity|]. now apply app_inv_head in H.
  - destruct (char_eqb y space) eqn:Hys.
    + intros H. discriminate H.
    + intros H. injection H as E _. subst y. discriminate Hyp.
  - destruct (char_eqb x space) eqn:Hxs.
    + intros H. discriminate H.
    + intros H. injection H as E _. subst x. discriminate Hxp.
  - destruct (char_eqb x space) eqn:Hxs; [apply char_eqb_eq in Hxs; subst x|];
      (destruct (char_eqb y space) eqn:Hys; [apply char_eqb_eq in Hys; subst y|]).
    + intros H. split; [reflexivity|]. now apply app_inv_head in H.
    + intros H. injection H as E _. subst y. discriminate Hyp.
    + intros H. injection H as E _. subst x. discriminate Hxp.
    + intros H. injection H as E1 E2. now subst.
Qed.

(** The escaping loses nothing: two texts with the same escaped form are
    the same text. *)
Theorem escape_injective a b : escape a = escape b -> a = b.
Proof.
  revert b. induction a as [|x a IH]; intros [|y b].
  - reflexivity.
  - rewrite escape_cons. change (escape []) with (@nil char).
    intros H. symmetry in H. apply app_eq_nil in H.
    destruct H as [H _]. now apply escape_char_nonempty in H.
  - rewrite escape_cons. change (escape []) with (@nil char).
    intros H. apply app_eq_nil in H.
    destruct H as [H _]. now apply escape_char_nonempty in H.
  - rewrite !escape_cons. intros H.
    apply escape_char_cancel in H. destruct H as [-> H].
    f_equal. now apply IH.
Qed.

Lemma escape_injective_witness : lit "50% off" = lit "50% off".
Proof.
  apply (escape_injective (lit "50% off") (lit "50% off")). reflexivity.
Defined.

Lemma escape_char_no_space c :
  existsb (fun x => char_eqb x space) (escape_char c) = false.
Proof.
  unfold escape_char.
  destruct (char_eqb c percent); [reflexivity|].
  destruct (char_eqb c space) eqn:Hs; [reflexivity|].
  cbn [existsb]. now rewrite Hs.
Qed.

Lemma escape_no_space s : lacks space (escape s).
Proof.
  unfold lacks. induction s as [|c s IH]; [reflexivity|].
  now rewrite escape_cons, existsb_app, escape_char_no_space, IH.
Qed.

(** Whatever the label and the message, the URL holds no space, as long as
    the colour holds none. *)
Theorem create_badge_url_no_space label message color :
  lacks space color ->
  lacks space (create_badge_url label message color).
Proof.
  unfold lacks, create_badge_url. intros Hc.
  rewrite !existsb_app, Hc, (escape_no_space label), (escape_no_space message).
  reflexivity.
Qed.

Lemma create_badge_url_no_space_witness :
  lacks space (create_badge_url (lit "test coverage") (lit "68.0 %") (lit "red")).
Proof.
  apply (create_badge_url_no_space (lit "test coverage") (lit "68.0 %") (lit "red")).
  reflexivity.
Defined.

(** A dash is not escaped, so the place where the label ends and the
    message begins cannot be read back from the URL: moving a dash-separated
    part from the label to the message gives the same URL. *)
Theorem create_badge_url_dash_ambiguous a b c color :
  create_badge_url (a ++ [dash] ++ b) c color
  = create_badge_url a (b ++ [dash] ++ c) color.
Proof.
  unfold create_badge_url. rewrite !escape_app.
  change (escape [dash]) with (lit "-"). rewrite <- !app_assoc. reflexivity.
Qed.

(** ** get_project_version: the shape of the result *)

Lemma search_version_shape content v :
  search_version content = Some v -> v <> [] /\ lacks quote v.
Proof.
  induction content as [|c content IH]; cbn [search_version].
  - destruct (version_here []) eqn:H; [|discriminate].
    intros [= <-]. destruct (version_here_sound _ _ H) as (_ & _ & _ & _ & _ & _ & Hne & Hq).
    split; [exact Hne|]. unfold lacks. clear - Hq.
    induction s as [|x s IH]; [reflexivity|]. cbn in *.
    apply andb_true_iff in Hq. destruct Hq as [Hx Hs].
    unfold not_quote in Hx. apply negb_true_iff in Hx. now rewrite Hx, IH.
  - destruct (version_here (c :: content)) eqn:H; [|exact IH].
    intros [= <-]. destruct (version_here_sound _ _ H) as (_ & _ & _ & _ & _ & _ & Hne & Hq).
    split; [exact Hne|]. unfold lacks. clear - Hq.
    induction s as [|x s IH']; [reflexivity|]. cbn in *.
    apply andb_true_iff in Hq. destruct Hq as [Hx Hs].
    unfold not_quote in Hx. apply negb_true_iff in Hx. now rewrite Hx, IH'.
Qed.

(** Whatever the directory listing and the manifest files do, the version
    reader returns a text to its caller, and that text is never empty and
    never holds a double quote. *)
Theorem get_project_version_shape glob_nimble :
  exists v, get_project_version glob_nimble = Ret v
            /\ v <> [] /\ lacks quote v.
Proof.
  assert (Hd : default_version <> [] /\ lacks quote default_version)
    by (split; [discriminate|reflexivity]).
  destruct glob_nimble as [[|[content|] rest]|];
    unfold get_project_version; cbn [bind try_except]; eauto.
  destruct (search_version content) as [v|] eqn:Hs; cbn [try_except]; eauto.
  exists v. split; [reflexivity|]. eapply search_version_shape; eauto.
Qed.

(** ** generate_build_status and the build badge *)

(** The build checker has three answers, and the build badge is green for
    "passing", grey for "no source" and red for "failing": whatever the
    file system and the checker do, the badge is one of three URLs. *)
Theorem build_badge_three_forms format_1f version test_results coverage w :
  let status := generate_build_status w in
  let badge :=
    build_badge (generate_badges format_1f version status test_results coverage) in
  (status = lit "passing"
   /\ badge = lit "https://img.shields.io/badge/build-passing-brightgreen.svg")
  \/ (status = lit "failing"
      /\ badge = lit "https://img.shields.io/badge/build-failing-red.svg")
  \/ (status = lit "no source"
      /\ badge = lit "https://img.shields.io/badge/build-no%20source-lightgrey.svg").
Proof.
  cbv zeta. unfold generate_build_status.
  destruct (path_exists w (lit "main.nim")).
  { destruct (run_exit_code w _ =? 0)%Z; [left|right; left]; split; reflexivity. }
  destruct (path_exists w (lit "src/main.nim")).
  { destruct (run_exit_code w _ =? 0)%Z; [left|right; left]; split; reflexivity. }
  destruct (rglob_nim w) as [|first rest]; [right; right; split; reflexivity|].
  destruct (negb _); [|right; right; split; reflexivity].
  destruct (run_exit_code w _ =? 0)%Z; [left|right; left]; split; reflexivity.
Qed.

(** src/main.nim is looked at only when main.nim is missing, and the tree is
    searched only when both are: with src/main.nim present and main.nim
    absent, the verdict is that of the check of src/main.nim. *)
Theorem generate_build_status_src_main w :
  path_exists w (lit "main.nim") = false ->
  path_exists w (lit "src/main.nim") = true ->
  generate_build_status w =
  if (run_exit_code w (lit "nim check src/main.nim") =? 0)%Z
  then lit "passing" else lit "failing".
Proof.
  intros H1 H2. unfold generate_build_status. now rewrite H1, H2.
Qed.

Lemma generate_build_status_src_main_witness :
  generate_build_status
    {| path_exists := fun p => str_eqb p (lit "src/main.nim");
       rglob_nim := [lit "src/main.nim"; lit "tests/t_parser.nim"];
       run_exit_code := fun _ => 0%Z |} = lit "passing".
Proof.
  apply (generate_build_status_src_main
           {| path_exists := fun p => str_eqb p (lit "src/main.nim");
              rglob_nim := [lit "src/main.nim"; lit "tests/t_parser.nim"];
              run_exit_code := fun _ => 0%Z |});
    vm_compute; reflexivity.
Defined.

(** When the tree is searched and no path holds "test", the file that is
    checked is the first one of the listing. *)
Theorem generate_build_status_first_file w first rest :
  path_exists w (lit "main.nim") = false ->
  path_exists w (lit "src/main.nim") = false ->
  rglob_nim w = first :: rest ->
  existsb (fun f => contains (lit "test") f) (first :: rest) = false ->
  generate_build_status w =
  if (run_exit_code w (lit "nim check " ++ first) =? 0)%Z
  then lit "passing" else lit "failing".
Proof.
  intros H1 H2 H3 H4. unfold generate_build_status.
  now rewrite H1, H2, H3, H4.
Qed.

Lemma generate_build_status_first_file_witness :
  generate_build_status
    {| path_exists := fun _ => false;
       rglob_nim := [lit "src/repl.nim"; lit "src/nimlisp.nim"];
       run_exit_code := fun cmd =>
         if str_eqb cmd (lit "nim check src/repl.nim") then 1%Z else 0%Z |}
  = lit "failing".
Proof.
  apply (generate_build_status_first_file
           {| path_exists := fun _ => false;
              rglob_nim := [lit "src/repl.nim"; lit "src/nimlisp.nim"];
              run_exit_code := fun cmd =>
                if str_eqb cmd (lit "nim check src/repl.nim") then 1%Z else 0%Z |}
           (lit "src/repl.nim") [lit "src/nimlisp.nim"]);
    vm_compute; reflexivity.
Defined.

(** ** run_tests and the tests badge *)

Lemma count_line_starts_nonneg p bol s : (0 <= count_line_starts p bol s)%Z.
Proof.
  revert bol. induction s as [|c s IH]; intros bol; cbn [count_line_starts].
  - lia.
  - specialize (IH (char_eqb c newline)).
    destruct (bol && startswith p (c :: s)); lia.
Qed.

Lemma blocks_in_nonneg test_files : (0 <= blocks_in test_files)%Z.
Proof.
  induction test_files as [|[content|] rest IH]; cbn [blocks_in]; try lia.
  pose proof (count_line_starts_nonneg (lit "block:") true content).
  unfold count_blocks. lia.
Qed.

(** The counts are all or nothing: no count is negative, passed and failed
    are never both positive, each of them is 0 or the whole total, and a
    positive total comes with the status "passing" or "failing". *)
Theorem run_tests_all_or_nothing exit_code stdout test_files :
  let r := run_tests exit_code stdout test_files in
  (0 <= total r)%Z
  /\ (passed r = 0%Z \/ passed r = total r)
  /\ (failed r = 0%Z \/ failed r = total r)
  /\ (passed r = 0%Z \/ failed r = 0%Z)
  /\ (status r = lit "no tests" -> total r = 0%Z)
  /\ (status r = lit "passing" -> failed r = 0%Z)
  /\ (status r = lit "failing" -> passed r = 0%Z).
Proof.
  cbv zeta. rewrite run_tests_unfold.
  pose proof (blocks_in_nonneg test_files) as Hb.
  destruct (exit_code =? 0)%Z;
    [destruct (_ && _); [|destruct (0 <? _)%Z]|];
    cbn [results passed failed total test_functions status];
    repeat split; auto; try lia; try discriminate.
Qed.

(** A runner that exits with a code other than 0 gives the tests badge the
    message "no tests" in red, whatever it printed and whatever the test
    files hold. *)
Theorem tests_badge_runner_error
    format_1f version build_status coverage exit_code stdout test_files :
  exit_code <> 0%Z ->
  tests_badge
    (generate_badges format_1f version build_status
       (run_tests exit_code stdout test_files) coverage)
  = lit "https://img.shields.io/badge/tests-no%20tests-red.svg".
Proof.
  intros H. rewrite (run_tests_runner_error exit_code stdout test_files H).
  reflexivity.
Qed.

Lemma tests_badge_runner_error_witness :
  tests_badge
    (generate_badges (fun _ => lit "0.0") (lit "0.1.0") (lit "passing")
       (run_tests 1 two_passes three_blocks) 0%float)
  = lit "https://img.shields.io/badge/tests-no%20tests-red.svg".
Proof.
  apply (tests_badge_runner_error (fun _ => lit "0.0") (lit "0.1.0")
           (lit "passing") 0%float 1 two_passes three_blocks).
  discriminate.
Defined.

(** When a file fails and the test files hold M > 0 blocks, the tests badge
    reports all M tests as failed, in red: its message is
    "M tests (M failed)", however many files passed. *)
Theorem tests_badge_all_failed
    format_1f version build_status coverage stdout test_files :
  (1 <= count_lines failure_line stdout)%Z ->
  (0 < blocks_in test_files)%Z ->
  let r := run_tests 0 stdout test_files in
  let m := str_of_int (blocks_in test_files) in
  test_message r = m ++ lit " tests (" ++ m ++ lit " failed)"
  /\ test_color r = lit "red"
  /\ tests_badge (generate_badges format_1f version build_status r coverage)
     = create_badge_url (lit "tests")
         (m ++ lit " tests (" ++ m ++ lit " failed)") (lit "red").
Proof.
  intros Hf Hm. cbv zeta. rewrite run_tests_unfold. cbn [Z.eqb].
  replace (count_lines failure_line stdout =? 0)%Z with false
    by (symmetry; apply Z.eqb_neq; lia).
  replace (0 <? count_lines failure_line stdout)%Z with true
    by (symmetry; apply Z.ltb_lt; lia).
  rewrite andb_false_r.
  unfold generate_badges, test_message, test_color, results.
  cbn [total status failed tests_badge].
  replace (0 <? blocks_in test_files)%Z with true
    by (symmetry; apply Z.ltb_lt; lia).
  repeat split.
Qed.

Lemma tests_badge_all_failed_witness :
  let r := run_tests 0 pass_and_fail three_blocks in
  test_message r = lit "3 tests (3 failed)"
  /\ test_color r = lit "red"
  /\ tests_badge (generate_badges (fun _ => lit "0.0") (lit "0.1.0")
                    (lit "passing") r 0%float)
     = create_badge_url (lit "tests") (lit "3 tests (3 failed)") (lit "red").
Proof.
  apply (tests_badge_all_failed (fun _ => lit "0.0") (lit "0.1.0")
           (lit "passing") 0%float pass_and_fail three_blocks).
  - vm_compute. discriminate.
  - vm_compute. reflexivity.
Defined.

(** ** strip_ansi: markers survive the stripping *)

Lemma ansi_code_tail s m rest :
  skipn (span_len ansi_param s) s = m :: rest ->
  char_eqb m 109%N = true ->
  forallb ansi_tail (firstn (S (span_len ansi_param s)) s) = true.
Proof.
  intros Hs Hm. induction s as [|x s IH]; [discriminate|].
  cbn [span_len] in *. destruct (ansi_param x) eqn:Hx.
  - cbn [skipn] in Hs. cbn [firstn forallb].
    unfold ansi_tail at 1. rewrite Hx, orb_true_r. cbn [orb andb].
    now apply IH.
  - cbn [skipn] in Hs. injection Hs as -> _. cbn [firstn forallb].
    unfold ansi_tail. now rewrite Hm, !orb_true_r.
Qed.

Lemma ansi_here_shape c s n :
  ansi_here (c :: s) = Some (S n) ->
  c = esc /\ forallb ansi_tail (firstn n s) = true.
Proof.
  unfold ansi_here. destruct s as [|b s']; [discriminate|].
  destruct (char_eqb c esc) eqn:Hc; [|discriminate].
  destruct (char_eqb b 91%N) eqn:Hb; [|discriminate]. cbn [andb].
  destruct (skipn (span_len ansi_param s') s') as [|m rest] eqn:Hs;
    [discriminate|].
  destruct (char_eqb m 109%N) eqn:Hm; [|discriminate].
  intros H. injection H as <-. apply char_eqb_eq in Hc. split; [exact Hc|].
  cbn [firstn forallb]. unfold ansi_tail at 1. unfold lbracket. rewrite Hb.
  cbn [orb andb].
  replace (span_len ansi_param s' + 1) with (S (span_len ansi_param s')) by lia.
  eapply ansi_code_tail; eauto.
Qed.

Lemma ansi_here_not_esc c s : c <> esc -> ansi_here (c :: s) = None.
Proof.
  intros H. unfold ansi_here. destruct s as [|b s']; [reflexivity|].
  destruct (char_eqb c esc) eqn:Hc; [|reflexivity].
  apply char_eqb_eq in Hc. contradiction.
Qed.

Section Markers.

(** A marker: its first character cannot stand inside a colour code, and it
    holds no escape character. *)
Variable first : char.
Variable more : str.
Hypothesis first_outside : ansi_tail first = false.
Hypothesis first_not_esc : first <> esc.
Hypothesis more_plain : lacks esc more.

Lemma startswith_kept q s :
  lacks esc q ->
  startswith q s = true ->
  startswith q (sub_loop ansi_here [] O s) = true.
Proof.
  revert s. induction q as [|x q IH]; intros s Hq H; [reflexivity|].
  destruct s as [|y s]; [discriminate|].
  cbn [startswith] in H. apply andb_true_iff in H. destruct H as [Hxy Hs].
  apply char_eqb_eq in Hxy. subst y.
  unfold lacks in Hq. cbn [existsb] in Hq. apply orb_false_iff in Hq.
  destruct Hq as [Hx Hq].
  assert (Hne : x <> esc).
  { intros ->. rewrite char_eqb_refl in Hx. discriminate. }
  cbn [sub_loop]. rewrite (ansi_here_not_esc x s Hne).
  cbn [startswith]. rewrite char_eqb_refl. cbn [andb]. now apply IH.
Qed.

Lemma contains_cons_r p c s : contains p s = true -> contains p (c :: s) = true.
Proof. intros H. cbn [contains]. rewrite H. apply orb_true_r. Qed.

Lemma marker_kept s k :
  forallb ansi_tail (firstn k s) = true ->
  contains (first :: more) s = true ->
  contains (first :: more) (sub_loop ansi_here [] k s) = true.
Proof.
  revert k. induction s as [|c s IH]; intros k Hk H.
  - cbn in H. discriminate.
  - cbn [contains] in H. destruct k as [|k].
    + cbn [sub_loop].
      destruct (ansi_here (c :: s)) as [[|n]|] eqn:Hm.
      * apply orb_true_iff in H. destruct H as [H|H].
        -- cbn [contains]. apply orb_true_iff. left.
           cbn [startswith] in H |- *. apply andb_true_iff in H.
           destruct H as [H1 H2]. rewrite H1. cbn [andb].
           now apply startswith_kept.
        -- apply contains_cons_r. now apply (IH O).
      * apply ansi_here_shape in Hm. destruct Hm as [-> Htail].
        cbn [app]. apply IH; [exact Htail|].
        apply orb_true_iff in H. destruct H as [H|H]; [|exact H].
        cbn [startswith] in H. apply andb_true_iff in H. destruct H as [H _].
        apply char_eqb_eq in H. contradiction.
      * apply orb_true_iff in H. destruct H as [H|H].
        -- cbn [contains]. apply orb_true_iff. left.
           cbn [startswith] in H |- *. apply andb_true_iff in H.
           destruct H as [H1 H2]. rewrite H1. cbn [andb].
           now apply startswith_kept.
        -- apply contains_cons_r. now apply (IH O).
    + cbn [sub_loop]. cbn [firstn forallb] in Hk.
      apply andb_true_iff in Hk. destruct Hk as [Hc Hk].
      apply IH; [exact Hk|].
      apply orb_true_iff in H. destruct H as [H|H]; [|exact H].
      cbn [startswith] in H. apply andb_true_iff in H. destruct H as [H _].
      apply char_eqb_eq in H. subst c. rewrite first_outside in Hc. discriminate.
Qed.

Lemma marker_survives line :
  contains (first :: more) line = true ->
  contains (first :: more) (strip_ansi line) = true.
Proof. apply (marker_kept line O). reflexivity. Qed.

End Markers.

(** Colour codes never hide a marker: a line of the runner's output that
    contains the pass marker, the compile-unit marker or the fail marker
    still contains it after the colour codes are stripped, wherever the
    codes stand in the line. *)
Theorem markers_survive_stripping line :
  (contains pass_marker line = true -> bears pass_marker line = true)
  /\ (contains compile_marker line = true -> bears compile_marker line = true)
  /\ (contains fail_marker line = true -> bears fail_marker line = true).
Proof.
  unfold bears. repeat split; intros H.
  - refine (marker_survives 80%N (lit "ASS:") eq_refl _ eq_refl line H).
    discriminate.
  - refine (marker_survives 46%N (lit "nim c") eq_refl _ eq_refl line H).
    discriminate.
  - refine (marker_survives 70%N (lit "AIL:") eq_refl _ eq_refl line H).
    discriminate.
Qed.

Lemma markers_survive_stripping_witness :
  bears fail_marker (lit "FAIL: tests/t_parser.nim c" ++ [esc] ++ lit "[0m") = true.
Proof.
  apply (proj2 (proj2 (markers_survive_stripping
                         (lit "FAIL: tests/t_parser.nim c" ++ [esc] ++ lit "[0m")))).
  vm_compute. reflexivity.
Defined.

(** ** count_blocks: the lines that count *)

Lemma filter_length_cons {A} (f : A -> bool) x l :
  Z.of_nat (List.length (filter f (x :: l))) =
  ((if f x then 1 else 0) + Z.of_nat (List.length (filter f l)))%Z.
Proof. cbn [filter]. destruct (f x); cbn [List.length]; lia. Qed.

Lemma split_lines_cons c s :
  split_lines (c :: s) =
  if char_eqb c newline then [] :: split_lines s
  else (c :: hd [] (split_lines s)) :: tl (split_lines s).
Proof.
  cbn [split_lines]. destruct (char_eqb c newline); [reflexivity|].
  destruct (split_lines s); reflexivity.
Qed.

Lemma startswith_first_line q s :
  lacks newline q ->
  startswith q s = startswith q (hd [] (split_lines s)).
Proof.
  revert s. induction q as [|x q IH]; intros s Hq; [reflexivity|].
  unfold lacks in Hq. cbn [existsb] in Hq. apply orb_false_iff in Hq.
  destruct Hq as [Hx Hq].
  destruct s as [|c s]; [reflexivity|].
  rewrite split_lines_cons. destruct (char_eqb c newline) eqn:Hc.
  - apply char_eqb_eq in Hc. subst c. cbn [hd startswith]. now rewrite Hx.
  - cbn [hd startswith]. f_equal. now apply IH.
Qed.

Lemma count_line_starts_lines x q bol s :
  lacks newline (x :: q) ->
  count_line_starts (x :: q) bol s =
  ((if bol && startswith (x :: q) (hd [] (split_lines s)) then 1 else 0)
   + Z.of_nat (List.length (filter (startswith (x :: q)) (tl (split_lines s)))))%Z.
Proof.
  intros Hp.
  assert (Hnil : startswith (x :: q) [] = false) by reflexivity.
  remember (x :: q) as p eqn:Ep. clear Ep.
  revert bol. induction s as [|c s IH]; intros bol.
  - cbn [count_line_starts split_lines hd tl filter List.length].
    rewrite Hnil, andb_false_r. reflexivity.
  - cbn [count_line_starts]. rewrite IH.
    rewrite (startswith_first_line p (c :: s) Hp), split_lines_cons.
    destruct (char_eqb c newline) eqn:Hc.
    + cbn [hd tl]. rewrite Hnil, andb_false_r. cbn [andb].
      destruct (split_lines s) as [|l ls] eqn:E.
      * cbn [hd tl filter List.length]. rewrite Hnil. reflexivity.
      * cbn [hd tl filter].
        destruct (startswith p l); cbn [List.length]; lia.
    + cbn [hd tl andb]. lia.
Qed.

(** A test block is a line that starts with "block:": the number of blocks
    counted in a text is the number of its lines, as split at the newlines,
    that start with these six characters. *)
Theorem count_blocks_lines content :
  count_blocks content =
  Z.of_nat (List.length (filter (startswith (lit "block:")) (split_lines content))).
Proof.
  unfold count_blocks.
  change (lit "block:") with (98%N :: lit "lock:").
  rewrite count_line_starts_lines by reflexivity.
  cbn [andb]. destruct (split_lines content) as [|l ls]; [reflexivity|].
  rewrite filter_length_cons. reflexivity.
Qed.

(** ** update_readme: what is rewritten and what is left alone *)

Lemma startswith_app_l p q s :
  startswith (p ++ q) s = true -> startswith p s = true.
Proof.
  revert s. induction p as [|x p IH]; intros s H; [reflexivity|].
  destruct s as [|y s]; [discriminate|]. cbn [app startswith] in *.
  apply andb_true_iff in H. destruct H as [-> H]. cbn [andb]. now apply IH.
Qed.

Lemma link_here_needs_start name s :
  startswith (lit "[![") s = false -> link_here name s = None.
Proof.
  intros H. unfold link_here.
  destruct (startswith (link_prefix name) s) eqn:Hp; [|reflexivity].
  unfold link_prefix in Hp. apply startswith_app_l in Hp. congruence.
Qed.

Lemma sub_literal_no_start name repl s :
  contains (lit "[![") s = false ->
  sub_literal (link_here name) repl s = s.
Proof.
  unfold sub_literal. induction s as [|c s IH]; [reflexivity|].
  cbn [contains]. intros H. apply orb_false_iff in H. destruct H as [H1 H2].
  cbn [sub_loop]. rewrite (link_here_needs_start name _ H1).
  f_equal. now apply IH.
Qed.

(** A README without the opening [[![] of a badge link is written back as it
    is, whatever other links and brackets it holds. *)
Theorem update_readme_no_badges badges content :
  literal (build_badge badges) ->
  literal (coverage_badge badges) ->
  literal (tests_badge badges) ->
  literal (version_badge badges) ->
  contains (lit "[![") content = false ->
  update_readme badges (Some content) = Some (Some content).
Proof.
  intros Hb Hc Ht Hv H.
  unfold update_readme, replacements. cbn [fold_left].
  rewrite (apply_replacement_literal (lit "Build Status") _ content Hb eq_refl).
  rewrite (sub_literal_no_start _ _ _ H).
  rewrite (apply_replacement_literal (lit "Test Coverage") _ _ Hc eq_refl).
  rewrite (sub_literal_no_start _ _ _ H).
  rewrite (apply_replacement_literal (lit "Tests") _ _ Ht eq_refl).
  rewrite (sub_literal_no_start _ _ _ H).
  rewrite (apply_replacement_literal (lit "Version") _ _ Hv eq_refl).
  rewrite (sub_literal_no_start _ _ _ H).
  reflexivity.
Qed.

Lemma update_readme_no_badges_witness :
  update_readme example_badges
    (Some (lit "# NimLisp" ++ [newline] ++ lit "See [the docs](docs/) and ![logo](l.png)."))
  = Some (Some (lit "# NimLisp" ++ [newline]
                  ++ lit "See [the docs](docs/) and ![logo](l.png).")).
Proof.
  apply (update_readme_no_badges example_badges
           (lit "# NimLisp" ++ [newline]
              ++ lit "See [the docs](docs/) and ![logo](l.png)."));
    vm_compute; reflexivity.
Defined.

(** *** One badge among other text *)

Lemma contains_tail p c s : contains p (c :: s) = false -> contains p s = false.
Proof.
  cbn [contains]. intros H. apply orb_false_iff in H. tauto.
Qed.

Lemma sub_literal_front name repl a t :
  contains (lit "[!") a = false ->
  sub_literal (link_here name) repl (a ++ lbracket :: t)
  = a ++ sub_literal (link_here name) repl (lbracket :: t).
Proof.
  unfold sub_literal. induction a as [|c a IH]; intros H; [reflexivity|].
  cbn [app sub_loop].
  rewrite link_here_needs_start.
  - f_equal. apply IH. eapply contains_tail; eauto.
  - cbn [contains] in H. apply orb_false_iff in H. destruct H as [H _].
    change (lit "[![") with [lbracket; bang; lbracket].
    change (lit "[!") with [lbracket; bang] in H.
    cbn [startswith] in H |- *.
    destruct (char_eqb lbracket c); [|reflexivity]. cbn [andb] in *.
    destruct a as [|d a]; cbn [app].
    + reflexivity.
    + destruct (char_eqb bang d); [discriminate H|reflexivity].
Qed.

Lemma sub_literal_plain_front name repl x t :
  lacks lbracket x ->
  sub_literal (link_here name) repl (x ++ t)
  = x ++ sub_literal (link_here name) repl t.
Proof.
  unfold sub_literal, lacks. induction x as [|c x IH]; intros H; [reflexivity|].
  cbn [existsb] in H. apply orb_false_iff in H. destruct H as [Hc Hx].
  cbn [app sub_loop]. rewrite link_here_needs_start.
  - f_equal. now apply IH.
  - change (lit "[![") with [lbracket; bang; lbracket]. cbn [startswith].
    replace (char_eqb lbracket c) with false; [reflexivity|].
    symmetry. unfold char_eqb in *. rewrite N.eqb_sym. exact Hc.
Qed.

Lemma lazy_dots_found x y :
  lacks newline x -> lacks rbracket x ->
  lazy_dots (x ++ rbracket :: lparen :: y) = Some (List.length x).
Proof.
  unfold lacks. induction x as [|c x IH]; intros Hn Hr.
  - reflexivity.
  - cbn [existsb] in Hn, Hr. apply orb_false_iff in Hn, Hr.
    destruct Hn as [Hcn Hn], Hr as [Hcr Hr].
    cbn [app lazy_dots startswith]. rewrite Hcn.
    replace (char_eqb rbracket c) with false
      by (symmetry; unfold char_eqb in *; rewrite N.eqb_sym; exact Hcr).
    cbn [andb]. rewrite (IH Hn Hr). reflexivity.
Qed.

Lemma new_link_prefix name url :
  new_link name url = link_prefix name ++ lparen :: url ++ lit ")](#)".
Proof.
  unfold new_link, link_prefix. rewrite <- !app_assoc. reflexivity.
Qed.

Lemma link_here_exact name old b :
  lacks newline old -> lacks rbracket old ->
  link_here name (new_link name old ++ b)
  = Some (List.length (new_link name old)).
Proof.
  intros Hn Hr. unfold link_here. cbv zeta.
  rewrite new_link_prefix, <- app_assoc, startswith_app, skipn_length_app.
  set (x := lparen :: old ++ [rparen]).
  assert (E : (lparen :: old ++ lit ")](#)") ++ b
              = x ++ rbracket :: lparen :: lit "#)" ++ b).
  { unfold x. cbn [app]. rewrite <- !app_assoc. reflexivity. }
  rewrite E. clear E.
  assert (Hxn : lacks newline x).
  { unfold lacks, x in *. cbn [existsb]. now rewrite existsb_app, Hn. }
  assert (Hxr : lacks rbracket x).
  { unfold lacks, x in *. cbn [existsb]. now rewrite existsb_app, Hr. }
  rewrite (lazy_dots_found x _ Hxn Hxr).
  replace (List.length x + 2) with (List.length (x ++ [rbracket; lparen]))
    by (rewrite length_app; reflexivity).
  change (x ++ rbracket :: lparen :: lit "#)" ++ b)
    with (x ++ [rbracket; lparen] ++ lit "#)" ++ b).
  rewrite app_assoc, skipn_length_app.
  change (to_rparen (lit "#)" ++ b)) with (Some 1).
  unfold x. rewrite !length_app. cbn [List.length].
  rewrite !length_app. change (List.length (lit ")](#)")) with 5.
  cbn [List.length]. f_equal. lia.
Qed.

Lemma sub_literal_at_link name repl old b :
  lacks newline old -> lacks rbracket old ->
  sub_literal (link_here name) repl (new_link name old ++ b)
  = repl ++ sub_literal (link_here name) repl b.
Proof.
  intros Hn Hr. pose proof (link_here_exact name old b Hn Hr) as H.
  assert (E : new_link name old = lbracket :: tl (new_link name old))
    by reflexivity.
  unfold sub_literal. rewrite E in H |- *. cbn [app sub_loop List.length] in *.
  rewrite H. f_equal. rewrite sub_loop_skip. f_equal.
  apply (skipn_length_app (tl (new_link name old)) b).
Qed.

(** The pattern of a category, on a link of its own category. *)
Lemma sub_own name repl a old b :
  contains (lit "[!") a = false ->
  contains (lit "[![") b = false ->
  lacks newline old -> lacks rbracket old ->
  sub_literal (link_here name) repl (a ++ new_link name old ++ b)
  = a ++ repl ++ b.
Proof.
  intros Ha Hb Hn Hr.
  assert (E : new_link name old ++ b = lbracket :: tl (new_link name old) ++ b)
    by reflexivity.
  rewrite E, (sub_literal_front name repl a _ Ha), <- E.
  rewrite (sub_literal_at_link name repl old b Hn Hr).
  now rewrite (sub_literal_no_start name repl b Hb).
Qed.

Lemma diverge_startswith p q rest :
  diverge p q = true -> startswith p (q ++ rest) = false.
Proof.
  revert q. induction p as [|x p IH]; intros [|y q] H; try discriminate.
  cbn [diverge] in H. cbn [app startswith].
  destruct (char_eqb x y); [|reflexivity]. cbn [andb]. now apply IH.
Qed.

(** The pattern of a category, on a link of another category. *)
Lemma sub_other other name repl a url b :
  diverge (link_prefix other) (link_prefix name) = true ->
  char_eqb bang (hd rbracket name) = false ->
  lacks lbracket name -> lacks lbracket url ->
  contains (lit "[!") a = false ->
  contains (lit "[![") b = false ->
  sub_literal (link_here other) repl (a ++ new_link name url ++ b)
  = a ++ new_link name url ++ b.
Proof.
  intros Hd Hh Hname Hurl Ha Hb.
  assert (E : new_link name url ++ b = lbracket :: tl (new_link name url) ++ b)
    by reflexivity.
  rewrite E, (sub_literal_front other repl a _ Ha), <- E. f_equal.
  assert (Hat : link_here other (new_link name url ++ b) = None).
  { unfold link_here. cbv zeta. rewrite new_link_prefix, <- app_assoc.
    now rewrite (diverge_startswith _ _ _ Hd). }
  unfold sub_literal in *. rewrite E in Hat |- *. cbn [sub_loop].
  rewrite Hat. rewrite <- E. f_equal.
  (* the rest of the link opens no link *)
  change (tl (new_link name url) ++ b)
    with (bang :: lbracket :: (name ++ lit "](" ++ url ++ lit ")](#)") ++ b).
  cbn [sub_loop]. rewrite link_here_needs_start by reflexivity. f_equal.
  rewrite link_here_needs_start.
  2:{ change (lit "[![") with [lbracket; bang; lbracket]. cbn [startswith].
      rewrite char_eqb_refl. cbn [andb].
      destruct name as [|n0 name']; cbn [hd app] in *; [reflexivity|].
      now rewrite Hh. }
  f_equal.
  assert (Hx : lacks lbracket (name ++ lit "](" ++ url ++ lit ")](#)")).
  { unfold lacks in *. now rewrite !existsb_app, Hname, Hurl. }
  fold (sub_literal (link_here other) repl
          ((name ++ lit "](" ++ url ++ lit ")](#)") ++ b)).
  rewrite (sub_literal_plain_front other repl _ b Hx).
  now rewrite (sub_literal_no_start other repl b Hb).
Qed.

Ltac readme_step :=
  first
    [ rewrite sub_own by assumption
    | rewrite sub_other by first [reflexivity | assumption] ].

(** A README that holds one badge link, [[![Name](old)](#)] for one of the
    four categories, between two texts that open no badge link: the link is
    rewritten with the new URL of its category, and the texts before and
    after it are written back as they are. *)
Theorem update_readme_swaps_badge badges name url a old b :
  In (name, url) (categories badges) ->
  plain_badges badges ->
  contains (lit "[!") a = false ->
  contains (lit "[![") b = false ->
  lacks lbracket old -> lacks rbracket old -> lacks newline old ->
  update_readme badges (Some (a ++ new_link name old ++ b))
  = Some (Some (a ++ new_link name url ++ b)).
Proof.
  intros Hin ((Hb1 & Hb2) & (Hc1 & Hc2) & (Ht1 & Ht2) & (Hv1 & Hv2)).
  intros Ha Hb Hol Hor Hon.
  unfold update_readme, replacements. cbn [fold_left].
  rewrite (apply_replacement_literal (lit "Build Status") _ _ Hb1 eq_refl).
  rewrite (apply_replacement_literal (lit "Test Coverage") _ _ Hc1 eq_refl).
  rewrite (apply_replacement_literal (lit "Tests") _ _ Ht1 eq_refl).
  rewrite (apply_replacement_literal (lit "Version") _ _ Hv1 eq_refl).
  cbn [option_map]. do 2 f_equal.
  unfold categories in Hin. cbn [In] in Hin.
  destruct Hin as [E|[E|[E|[E|[]]]]]; injection E as <- <-;
    do 4 readme_step; reflexivity.
Qed.

Lemma update_readme_swaps_badge_witness :
  update_readme example_badges
    (Some (lit "# NimLisp [docs](d)" ++ [newline]
             ++ new_link (lit "Test Coverage") (lit "http://old/(1)")
             ++ lit " ![logo](l.png)"))
  = Some (Some (lit "# NimLisp [docs](d)" ++ [newline]
                  ++ new_link (lit "Test Coverage") (coverage_badge example_badges)
                  ++ lit " ![logo](l.png)")).
Proof.
  apply (update_readme_swaps_badge example_badges (lit "Test Coverage")
           (coverage_badge example_badges)
           (lit "# NimLisp [docs](d)" ++ [newline])
           (lit "http://old/(1)") (lit " ![logo](l.png)")).
  - right. left. reflexivity.
  - repeat split; reflexivity.
  - reflexivity.
  - reflexivity.
  - reflexivity.
  - reflexivity.
  - reflexivity.
Defined.

(** ** run_tests: the order of lines and files does not matter *)

Lemma filter_length_perm {A} (p : A -> bool) l1 l2 :
  Permutation l1 l2 ->
  List.length (filter p l1) = List.length (filter p l2).
Proof.
  induction 1 as [|x l1 l2 _ IH|x y l|l1 l2 l3 _ IH1 _ IH2]; cbn [filter].
  - reflexivity.
  - destruct (p x); cbn [List.length]; now rewrite IH.
  - destruct (p x), (p y); reflexivity.
  - now rewrite IH1.
Qed.

Lemma blocks_in_perm files1 files2 :
  Permutation files1 files2 -> blocks_in files1 = blocks_in files2.
Proof.
  induction 1 as [|x l1 l2 _ IH|x y l|l1 l2 l3 _ IH1 _ IH2].
  - reflexivity.
  - destruct x as [content|]; cbn [blocks_in]; now rewrite IH.
  - destruct x as [cx|], y as [cy|]; cbn [blocks_in]; lia.
  - now rewrite IH1.
Qed.

(** The result depends on which lines the runner printed and which test
    files there are, not on their order: the same lines in another order,
    and the same files listed in another order, give the same record. *)
Theorem run_tests_order exit_code out1 out2 files1 files2 :
  Permutation (split_lines out1) (split_lines out2) ->
  Permutation files1 files2 ->
  run_tests exit_code out1 files1 = run_tests exit_code out2 files2.
Proof.
  intros Hl Hf. rewrite !run_tests_unfold. unfold count_lines.
  rewrite (filter_length_perm pass_line _ _ Hl).
  rewrite (filter_length_perm failure_line _ _ Hl).
  now rewrite (blocks_in_perm _ _ Hf).
Qed.

Lemma run_tests_order_witness :
  run_tests 0 pass_and_fail three_blocks
  = run_tests 0
      (lit "FAIL: tests/t_parser.nim c" ++ [newline]
         ++ lit "PASS: tests/t_eval.nim c" ++ [newline])
      (rev three_blocks).
Proof.
  apply (run_tests_order 0 pass_and_fail
           (lit "FAIL: tests/t_parser.nim c" ++ [newline]
              ++ lit "PASS: tests/t_eval.nim c" ++ [newline])
           three_blocks (rev three_blocks)).
  - apply perm_swap.
  - apply Permutation_rev.
Defined.

(** ** estimate_coverage_fallback: which files are counted *)

Section FallbackFiles.

Variable lower : str -> str.
Variable count_proc count_func : str -> Z.

Lemma fold_count_file files src tb :
  fold_left (count_file lower count_proc count_func) files (src, tb) =
  ((src + total_over (is_source_file lower)
            (fun content => count_proc content + count_func content) files)%Z,
   (tb + total_over is_test_file count_blocks files)%Z).
Proof.
  revert src tb. induction files as [|f files IH]; intros src tb.
  - cbn. f_equal; lia.
  - cbn [fold_left total_over]. unfold count_file at 2.
    unfold is_test_file at 1, is_source_file at 1, readable.
    destruct (under_tests f) eqn:Hu; cbn [andb orb negb].
    + destruct (startswith (lit "t_") (file_name f)); cbn [negb andb];
        [destruct (file_text f)|]; rewrite IH; f_equal; lia.
    + destruct (contains (lit "test") (lower (file_name f))); cbn [negb];
        [|destruct (file_text f)]; rewrite IH; f_equal; lia.
Qed.

(** Test blocks are counted in the readable files under tests/ whose name
    starts with "t_", and only there; declarations are counted in the
    readable files outside tests/ whose lower-cased name does not contain
    "test", and only there.  A file that cannot be read, a file under tests/
    with another name and a file outside tests/ with "test" in its name add
    nothing to either count. *)
Theorem estimate_coverage_fallback_files nim_files :
  test_blocks_of lower count_proc count_func nim_files
  = total_over is_test_file count_blocks nim_files
  /\ src_functions_of lower count_proc count_func nim_files
     = total_over (is_source_file lower)
         (fun content => (count_proc content + count_func content)%Z) nim_files
  /\ estimate_coverage_fallback lower count_proc count_func nim_files
     = estimate_from_counts
         (total_over is_test_file count_blocks nim_files)
         (total_over (is_source_file lower)
            (fun content => (count_proc content + count_func content)%Z)
            nim_files).
Proof.
  unfold test_blocks_of, src_functions_of, estimate_coverage_fallback.
  rewrite fold_count_file. cbn [fst snd]. repeat split.
Qed.

(** A tree in which no file counts as a source file gives the estimate 0.0,
    however many test blocks its test files hold. *)
Theorem estimate_coverage_fallback_no_source nim_files :
  forallb (fun f => negb (is_source_file lower f)) nim_files = true ->
  estimate_coverage_fallback lower count_proc count_func nim_files = 0%float.
Proof.
  intros H.
  assert (E : total_over (is_source_file lower)
                (fun content => (count_proc content + count_func content)%Z)
                nim_files = 0%Z).
  { induction nim_files as [|f files IH]; [reflexivity|].
    cbn [forallb] in H. apply andb_true_iff in H. destruct H as [Hf Hs].
    cbn [total_over]. apply negb_true_iff in Hf. rewrite Hf, (IH Hs).
    reflexivity. }
  unfold estimate_coverage_fallback. rewrite fold_count_file, E.
  reflexivity.
Qed.

End FallbackFiles.

Lemma estimate_coverage_fallback_no_source_witness :
  estimate_coverage_fallback (fun s => s) (fun _ => 3%Z) (fun _ => 2%Z)
    [ {| under_tests := true; file_name := lit "t_parser.nim";
         file_text := Ret (lit "block:") |};
      {| under_tests := false; file_name := lit "test_utils.nim";
         file_text := Ret (lit "proc helper() = discard") |} ]
  = 0%float.
Proof.
  apply (estimate_coverage_fallback_no_source (fun s => s) (fun _ => 3%Z)
           (fun _ => 2%Z)).
  reflexivity.
Defined.

(** ** get_project_version: reading the field *)

Lemma search_version_front pre s :
  lacks 118%N pre -> search_version (pre ++ s) = search_version s.
Proof.
  unfold lacks. induction pre as [|c pre IH]; intros H; [reflexivity|].
  cbn [existsb] in H. apply orb_false_iff in H. destruct H as [Hc Hp].
  cbn [app search_version].
  assert (E : version_here (c :: pre ++ s) = None).
  { unfold version_here. change (lit "version") with (118%N :: lit "ersion").
    cbn [startswith].
    replace (char_eqb 118%N c) with false; [reflexivity|].
    symmetry. unfold char_eqb in *. rewrite N.eqb_sym. exact Hc. }
  rewrite E. now apply IH.
Qed.

(** A manifest whose first "v" opens a version field (the word, optional
    white space around the equals sign, a non-empty text without double
    quote between double quotes) makes the reader return that text,
    whatever follows the field and whatever other manifests exist. *)
Theorem get_project_version_reads_field pre ws1 ws2 v post rest :
  lacks 118%N pre ->
  forallb isspace ws1 = true -> forallb isspace ws2 = true ->
  v <> [] -> forallb not_quote v = true ->
  get_project_version
    (Ret (Ret (pre ++ lit "version" ++ ws1 ++ [equals] ++ ws2 ++ [quote]
                 ++ v ++ [quote] ++ post) :: rest))
  = Ret v.
Proof.
  intros Hpre H1 H2 Hv Hq.
  unfold get_project_version. cbn [bind].
  rewrite (search_version_front pre _ Hpre).
  pose proof (version_here_complete ws1 ws2 v post H1 H2 Hv Hq) as H.
  remember (lit "version" ++ ws1 ++ [equals] ++ ws2 ++ [quote]
              ++ v ++ [quote] ++ post) as s eqn:Es.
  destruct s as [|c s]; cbn [search_version]; rewrite H; reflexivity.
Qed.

Lemma get_project_version_reads_field_witness :
  get_project_version
    (Ret [Ret (lit "# Package" ++ [newline] ++ lit "version       = "
                 ++ [quote] ++ lit "2.3.1" ++ [quote] ++ [newline]
                 ++ lit "author = me");
          Raise])
  = Ret (lit "2.3.1").
Proof.
  apply (get_project_version_reads_field
           (lit "# Package" ++ [newline]) (lit "       ") (lit " ")
           (lit "2.3.1") ([newline] ++ lit "author = me") [Raise]).
  - reflexivity.
  - reflexivity.
  - reflexivity.
  - discriminate.
  - reflexivity.
Defined.

(** ** The tests badge of a passing run *)

(** When at least one file passes, none fails and the test files hold
    M > 0 blocks, the tests badge reads "M tests" in bright green. *)
Theorem tests_badge_all_passed
    format_1f version build_status coverage stdout test_files :
  (1 <= count_lines pass_line stdout)%Z ->
  count_lines failure_line stdout = 0%Z ->
  (0 < blocks_in test_files)%Z ->
  let r := run_tests 0 stdout test_files in
  let m := str_of_int (blocks_in test_files) in
  test_message r = m ++ lit " tests"
  /\ test_color r = lit "brightgreen"
  /\ tests_badge (generate_badges format_1f version build_status r coverage)
     = create_badge_url (lit "tests") (m ++ lit " tests") (lit "brightgreen").
Proof.
  intros Hp Hf Hm. cbv zeta. rewrite run_tests_unfold. cbn [Z.eqb].
  rewrite Hf.
  replace (0 <? count_lines pass_line stdout)%Z with true
    by (symmetry; apply Z.ltb_lt; lia).
  cbn [Z.eqb andb].
  unfold generate_badges, test_message, test_color, results.
  cbn [total status failed tests_badge].
  replace (0 <? blocks_in test_files)%Z with true
    by (symmetry; apply Z.ltb_lt; lia).
  repeat split.
Qed.

Lemma tests_badge_all_passed_witness :
  let r := run_tests 0 two_passes three_blocks in
  test_message r = lit "3 tests"
  /\ test_color r = lit "brightgreen"
  /\ tests_badge (generate_badges (fun _ => lit "0.0") (lit "0.1.0")
                    (lit "passing") r 0%float)
     = create_badge_url (lit "tests") (lit "3 tests") (lit "brightgreen").
Proof.
  apply (tests_badge_all_passed (fun _ => lit "0.0") (lit "0.1.0")
           (lit "passing") 0%float two_passes three_blocks).
  - vm_compute. discriminate.
  - vm_compute. reflexivity.
  - vm_compute. reflexivity.
Defined.

(** ** generate_badges: the URLs it hands to update_readme *)

Lemma lacks_app x a b : lacks x a -> lacks x b -> lacks x (a ++ b).
Proof. unfold lacks. intros Ha Hb. now rewrite existsb_app, Ha, Hb. Qed.

Lemma lacks_escape x s :
  lacks x (lit "%25%20") -> lacks x s -> lacks x (escape s).
Proof.
  intros Hx. unfold lacks in *. induction s as [|c s IH]; intros Hs.
  - reflexivity.
  - cbn [existsb] in Hs. apply orb_false_iff in Hs. destruct Hs as [Hc Hs].
    rewrite escape_cons, existsb_app, (IH Hs), orb_false_r.
    unfold escape_char.
    cbn in Hx. repeat (apply orb_false_iff in Hx; destruct Hx as [? Hx]).
    destruct (char_eqb c percent); [cbn; now rewrite H, H0, H1|].
    destruct (char_eqb c space); [cbn; now rewrite H, H0, H4|].
    cbn. now rewrite Hc.
Qed.

Lemma lacks_string_of_uint x d :
  lacks x (lit "0123456789") ->
  lacks x (lit (NilEmpty.string_of_uint d)).
Proof.
  intros Hx. unfold lacks in *. cbn in Hx.
  repeat (apply orb_false_iff in Hx; destruct Hx as [? Hx]).
  induction d; cbn [NilEmpty.string_of_uint lit list_ascii_of_string map existsb];
    try reflexivity;
    fold (lit (NilEmpty.string_of_uint d)); rewrite IHd, orb_false_r;
    assumption.
Qed.

Lemma lacks_str_of_int x n :
  lacks x (lit "-0123456789") -> lacks x (str_of_int n).
Proof.
  intros Hx. unfold str_of_int.
  assert (Hd : lacks x (lit "0123456789")).
  { unfold lacks in *. cbn [lit list_ascii_of_string map existsb] in Hx.
    apply orb_false_iff in Hx. exact (proj2 Hx). }
  destruct (Z.to_int n) as [d|d]; cbn [NilEmpty.string_of_int].
  - now apply lacks_string_of_uint.
  - unfold lacks in *. cbn [lit list_ascii_of_string map existsb] in Hx |- *.
    apply orb_false_iff in Hx. destruct Hx as [Hm _]. rewrite Hm. cbn [orb].
    now apply lacks_string_of_uint.
Qed.

Lemma lacks_create_badge_url x label message color :
  lacks x (lit "https://img.shields.io/badge/-.svg%250") ->
  lacks x label -> lacks x message -> lacks x color ->
  lacks x (create_badge_url label message color).
Proof.
  intros Hx Hl Hm Hc.
  assert (He : lacks x (lit "%25%20")).
  { unfold lacks in *. cbn in Hx |- *.
    repeat (apply orb_false_iff in Hx; destruct Hx as [? Hx]).
    repeat (apply orb_false_iff; split); assumption. }
  assert (Hp : lacks x (lit "https://img.shields.io/badge/")
               /\ lacks x (lit "-") /\ lacks x (lit ".svg")).
  { unfold lacks in *. cbn in Hx |- *.
    repeat (apply orb_false_iff in Hx; destruct Hx as [? Hx]).
    repeat split; repeat (apply orb_false_iff; split); assumption. }
  destruct Hp as (Hp1 & Hp2 & Hp3).
  unfold create_badge_url.
  repeat apply lacks_app; auto using lacks_escape.
Qed.

Lemma lacks_test_message x r :
  lacks x (lit "-0123456789 tests(failed)no") -> lacks x (test_message r).
Proof.
  intros Hx.
  assert (Hi : forall n, lacks x (str_of_int n)).
  { intros n. apply lacks_str_of_int. unfold lacks in *. cbn in Hx |- *.
    repeat (apply orb_false_iff in Hx; destruct Hx as [? Hx]).
    repeat (apply orb_false_iff; split); assumption. }
  assert (Hl : lacks x (lit " tests (") /\ lacks x (lit " failed)")
               /\ lacks x (lit " tests") /\ lacks x (lit "no tests")).
  { unfold lacks in *. cbn in Hx |- *.
    repeat (apply orb_false_iff in Hx; destruct Hx as [? Hx]).
    repeat split; repeat (apply orb_false_iff; split); assumption. }
  destruct Hl as (H1 & H2 & H3 & H4).
  unfold test_message. destruct (0 <? total r)%Z; [|exact H4].
  destruct (str_eqb (status r) (lit "failing")); repeat apply lacks_app; auto.
Qed.

Lemma generate_build_status_values w :
  generate_build_status w = lit "passing"
  \/ generate_build_status w = lit "failing"
  \/ generate_build_status w = lit "no source".
Proof.
  unfold generate_build_status.
  destruct (path_exists w (lit "main.nim")).
  { destruct (run_exit_code w _ =? 0)%Z; auto. }
  destruct (path_exists w (lit "src/main.nim")).
  { destruct (run_exit_code w _ =? 0)%Z; auto. }
  destruct (rglob_nim w) as [|first rest]; auto.
  destruct (negb _); auto.
  destruct (run_exit_code w _ =? 0)%Z; auto.
Qed.

Lemma plain_color_cases (c : str) :
  c = lit "brightgreen" \/ c = lit "lightgrey" \/ c = lit "red"
  \/ c = lit "yellow" \/ c = lit "blue" ->
  plain c.
Proof.
  intros [->|[->|[->|[->| ->]]]]; split; reflexivity.
Qed.

Lemma plain_create_badge_url label message color :
  plain label -> plain message -> plain color ->
  plain (create_badge_url label message color).
Proof.
  intros [Hl1 Hl2] [Hm1 Hm2] [Hc1 Hc2].
  split; apply lacks_create_badge_url; auto; reflexivity.
Qed.

(** The badge URLs that [generate_badges] builds from the build checker's
    answer and from any test results hold no backslash and no opening
    bracket, provided the version and the formatted coverage hold none: the
    replacements that [update_readme] makes with them are taken literally,
    and they open no badge link of their own. *)
Theorem generate_badges_plain format_1f version w test_results coverage :
  plain version ->
  plain (format_1f coverage) ->
  plain_badges
    (generate_badges format_1f version (generate_build_status w)
       test_results coverage).
Proof.
  intros Hv Hf. unfold plain_badges, generate_badges.
  cbn [build_badge coverage_badge tests_badge version_badge].
  split; [|split; [|split]].
  - apply plain_create_badge_url; [split; reflexivity| |].
    + destruct (generate_build_status_values w) as [->|[->| ->]];
        split; reflexivity.
    + apply plain_color_cases. unfold build_color.
      destruct (str_eqb _ _); auto. destruct (str_eqb _ _); auto.
  - apply plain_create_badge_url; [split; reflexivity| |].
    + destruct Hf as [Hf1 Hf2]. split; apply lacks_app; auto; reflexivity.
    + apply plain_color_cases. unfold coverage_color.
      destruct (90 <=? coverage)%float; auto.
      destruct (70 <=? coverage)%float; auto 6.
  - apply plain_create_badge_url; [split; reflexivity| |].
    + split; apply lacks_test_message; reflexivity.
    + apply plain_color_cases. unfold test_color.
      destruct (str_eqb _ _); auto. destruct (str_eqb _ _); auto.
  - apply plain_create_badge_url; [split; reflexivity| |].
    + destruct Hv as [Hv1 Hv2]. split; apply lacks_app; auto; reflexivity.
    + apply plain_color_cases. auto 6.
Qed.

Lemma generate_badges_plain_witness :
  plain_badges
    (generate_badges (fun _ => lit "68.0") (lit "2.3.1")
       (generate_build_status project_with_tests)
       (run_tests 0 pass_and_fail three_blocks) 68%float).
Proof.
  apply (generate_badges_plain (fun _ => lit "68.0") (lit "2.3.1")
           project_with_tests (run_tests 0 pass_and_fail three_blocks)
           68%float);
    split; reflexivity.
Defined.
